(** * Google Sheets combiner: acquisition, normalisation and combination

    A shallow embedding of [GoogleSheetsCombiner] (src/app.py): the
    identifier resolver [extract_sheet_id], the grid fetcher
    [fetch_sheet_data] with its two channels, [add_sheet],
    [combine_sheets] and [get_summary], together with the parts of
    Python and pandas they rely on.

    Python [str] values are modelled by their UTF-8 encoding (Rocq's
    [string]); Python [int]s that may be negative are [Z], loop counters
    are [nat]; the [header_count] dict is a [gmap string nat]; Streamlit
    output ([st.error], [st.warning], ...) is an explicit log. *)

From Stdlib Require Import ZArith Ascii.
From stdpp Require Import gmap strings list pretty.

Open Scope string_scope.
Open Scope nat_scope.
Open Scope list_scope.
Open Scope stdpp_scope.

(** ** Python strings *)

Module PyStr.

(** UTF-8 encoding of one code point. *)
Definition byte (n : N) : ascii := ascii_of_N n.

Definition chr (cp : N) : string :=
  if (cp <? 0x80)%N then String (byte cp) ""
  else if (cp <? 0x800)%N then
    String (byte (0xC0 + cp / 0x40)) (String (byte (0x80 + cp mod 0x40)) "")
  else if (cp <? 0x10000)%N then
    String (byte (0xE0 + cp / 0x1000))
      (String (byte (0x80 + (cp / 0x40) mod 0x40))
         (String (byte (0x80 + cp mod 0x40)) ""))
  else
    String (byte (0xF0 + cp / 0x40000))
      (String (byte (0x80 + (cp / 0x1000) mod 0x40))
         (String (byte (0x80 + (cp / 0x40) mod 0x40))
            (String (byte (0x80 + cp mod 0x40)) ""))).

(** A continuation byte is 10xxxxxx. *)
Definition is_continuation (a : ascii) : bool :=
  let n := N_of_ascii a in (0x80 <=? n)%N && (n <? 0xC0)%N.

(** The characters (code points) of a string, each as its own encoding:
    a lead byte owns the continuation bytes that follow it. *)
Fixpoint chars_aux (s : string) : string * list string :=
  match s with
  | "" => ("", [])
  | String a r =>
      let '(pending, cs) := chars_aux r in
      if is_continuation a then (String a pending, cs)
      else ("", String a pending :: cs)
  end.

Definition chars (s : string) : list string :=
  let '(pending, cs) := chars_aux s in
  if decide (pending = "") then cs else pending :: cs.

Definition join (cs : list string) : string := foldr String.app "" cs.

(** The code points for which [str.isspace] holds
    (CPython's [_PyUnicode_IsWhitespace]). *)
Definition whitespace_code_points : list N :=
  [0x09; 0x0A; 0x0B; 0x0C; 0x0D; 0x1C; 0x1D; 0x1E; 0x1F; 0x20; 0x85; 0xA0;
   0x1680; 0x2000; 0x2001; 0x2002; 0x2003; 0x2004; 0x2005; 0x2006; 0x2007;
   0x2008; 0x2009; 0x200A; 0x2028; 0x2029; 0x202F; 0x205F; 0x3000]%N.

Definition isspace (c : string) : bool :=
  bool_decide (c ∈ chr <$> whitespace_code_points).

Fixpoint lstrip_chars (cs : list string) : list string :=
  match cs with
  | [] => []
  | c :: r => if isspace c then lstrip_chars r else cs
  end.

(** [s.strip()] *)
Definition strip (s : string) : string :=
  join (reverse (lstrip_chars (reverse (lstrip_chars (chars s))))).

(** [s.startswith(p)] *)
Definition startswith (s p : string) : bool := String.prefix p s.

(** [p in s] *)
Definition contains (p s : string) : bool :=
  match String.index 0 p s with Some _ => true | None => false end.

(** [x or y] on an optional string: [None] and [""] are falsy. *)
Definition or_else (x : option string) (y : string) : string :=
  match x with
  | Some s => if decide (s = "") then y else s
  | None => y
  end.

Definition truthy (x : option string) : bool :=
  match x with
  | Some s => bool_decide (s ≠ "")
  | None => false
  end.

(** [f"{x}"] of an optional string. *)
Definition fmt (x : option string) : string := default "None" x.

End PyStr.

(** ** Python lists indexed by a possibly negative [int] *)

Section PyList.
Context {A : Type}.

(** [l[i]]; [None] stands for [IndexError]. *)
Definition py_index (l : list A) (i : Z) : option A :=
  if (0 <=? i)%Z then l !! Z.to_nat i
  else if (- Z.of_nat (length l) <=? i)%Z then l !! Z.to_nat (Z.of_nat (length l) + i)
  else None.

(** [l[i:]] *)
Definition py_slice_from (l : list A) (i : Z) : list A :=
  if (0 <=? i)%Z then drop (Z.to_nat i) l
  else drop (Z.to_nat (Z.of_nat (length l) + i)) l.
End PyList.

(** ** Exceptions, Streamlit output and the effect monad *)

Inductive exn :=
| ValueError (m : string)
| IndexError (m : string)
| HttpError (status : Z)
| RequestException (m : string)
| EmptyDataError (m : string)
| ParserError (m : string)
| InvalidIndexError (m : string)
| OtherException (m : string).

(** [str(e)] for the exceptions whose text the program prints. *)
Definition exn_str (e : exn) : string :=
  match e with
  | ValueError m | IndexError m | RequestException m | EmptyDataError m
  | ParserError m | InvalidIndexError m | OtherException m => m
  | HttpError status => "<HttpError " +:+ pretty status +:+ ">"
  end.

Inductive msg :=
| st_error (m : string)
| st_warning (m : string)
| st_info (m : string)
| st_success (m : string).

(** A computation writes Streamlit messages and either raises or returns. *)
Definition M (A : Type) : Type := list msg * (exn + A).

Definition ret {A} (a : A) : M A := ([], inr a).
Definition raise {A} (e : exn) : M A := ([], inl e).
Definition tell (m : msg) : M unit := ([m], inr tt).

Definition bind {A B} (c : M A) (k : A → M B) : M B :=
  match c with
  | (log, inl e) => (log, inl e)
  | (log, inr a) => let '(log', r) := k a in (log ++ log', r)
  end.

(** [try: c  except Exception as e: h e] *)
Definition try_except {A} (c : M A) (h : exn → M A) : M A :=
  match c with
  | (log, inl e) => let '(log', r) := h e in (log ++ log', r)
  | (log, inr a) => (log, inr a)
  end.

Definition lift {A} (r : exn + A) : M A := ([], r).

Notation "'let!' x ':=' c 'in' k" := (bind c (λ x, k))
  (at level 10, x pattern, c at level 100, k at level 200).
Notation "'do!' c 'in' k" := (bind c (λ _, k))
  (at level 10, c at level 100, k at level 200).

Definition returns {A} (c : M A) : Prop := ∃ a, c.2 = inr a.
Definition raises {A} (c : M A) : Prop := ∃ e, c.2 = inl e.

(** ** pandas data frames

    A frame is its column labels and its rows; the row index is the
    position in [rows].  A cell is a text ([Text s] is the [str] object
    [s], what the authenticated channel puts in every cell) or the
    missing-value marker ([NaN]) that pandas inserts when it aligns
    frames.  Column dtypes are not represented: the numeric columns that
    [pd.read_csv] infers on the public channel, and the conversions pandas
    applies to them when it aligns or stacks frames (int64 to float64),
    are outside this model, so what is stated about the value of a
    present cell after [pd.concat] is stated for tables of text only
    ([api_table]). *)

Inductive cell :=
| Text (s : string)
| NaN.

Global Instance cell_eq_dec : EqDecision cell.
Proof. solve_decision. Defined.

Record DataFrame := mkFrame {
  columns : list string;
  rows : list (list cell)
}.

Global Instance DataFrame_eq_dec : EqDecision DataFrame.
Proof. solve_decision. Defined.

Module pd.

(** [pd.DataFrame()] *)
Definition empty_frame : DataFrame := mkFrame [] [].

(** [pd.DataFrame(data, columns=cols)] for a list of rows: every row must
    be as wide as [cols]. *)
Definition new_DataFrame (data : list (list string)) (cols : list string)
  : exn + DataFrame :=
  if forallb (λ row, length row =? length cols) data
  then inr (mkFrame cols (map (map Text) data))
  else inl (ValueError "columns passed do not match the width of the data").

(** [len(df)] *)
Definition len (df : DataFrame) : nat := length (rows df).

(** [df.empty]: some axis has length 0. *)
Definition empty (df : DataFrame) : bool :=
  (length (columns df) =? 0) || (len df =? 0).

(** [df[key] = value] for a scalar: every column labelled [key] is
    overwritten; when there is none, a new last column is added. *)
Definition setitem (df : DataFrame) (key : string) (value : cell) : DataFrame :=
  if decide (key ∈ columns df) then
    mkFrame (columns df)
      (map (λ row, zip_with (λ c x, if decide (c = key) then value else x)
                     (columns df) row) (rows df))
  else mkFrame (columns df ++ [key]) (map (λ row, row ++ [value]) (rows df)).

(** A label joins the labels met so far unless it is already there. *)
Definition unique_step (acc : list string) (x : string) : list string :=
  if decide (x ∈ acc) then acc else acc ++ [x].

(** The labels of several indexes, each once, in order of first
    appearance ([fast_unique_multiple_list] with [sort=False]). *)
Definition fast_unique (labels : list string) : list string :=
  foldl unique_step [] labels.

(** The column index of the result of an outer concat: the common index
    when all frames carry the same one, their union otherwise. *)
Definition combined_index (indexes : list (list string)) : list string :=
  match indexes with
  | [] => []
  | i0 :: others =>
      if forallb (λ i, bool_decide (i = i0)) others then i0
      else fast_unique (mjoin indexes)
  end.

(** Position of the first column labelled [c]. *)
Fixpoint get_loc (cols : list string) (c : string) : option nat :=
  match cols with
  | [] => None
  | c' :: r => if decide (c' = c) then Some 0 else S <$> get_loc r c
  end.

(** One row re-laid on [new_cols]: a label the frame lacks gives [NaN]. *)
Definition reindex_row (cols new_cols : list string) (row : list cell) : list cell :=
  map (λ c, match get_loc cols c with
            | Some j => default NaN (row !! j)
            | None => NaN
            end) new_cols.

(** Rows of [df] aligned on [new_cols]; a frame whose own labels repeat
    cannot be re-indexed. *)
Definition reindex (new_cols : list string) (df : DataFrame)
  : exn + list (list cell) :=
  if decide (columns df = new_cols) then inr (rows df)
  else if decide (NoDup (columns df))
       then inr (map (reindex_row (columns df) new_cols) (rows df))
       else inl (InvalidIndexError
                   "Reindexing only valid with uniquely valued Index objects").

Fixpoint concat_rows (new_cols : list string) (objs : list DataFrame)
  : exn + list (list cell) :=
  match objs with
  | [] => inr []
  | df :: r =>
      match reindex new_cols df with
      | inl e => inl e
      | inr rs =>
          match concat_rows new_cols r with
          | inl e => inl e
          | inr rs' => inr (rs ++ rs')
          end
      end
  end.

(** [pd.concat(objs, ignore_index=True)]: axis 0, outer join, unsorted. *)
Definition concat (objs : list DataFrame) : exn + DataFrame :=
  match objs with
  | [] => inl (ValueError "No objects to concatenate")
  | _ =>
      let new_cols := combined_index (columns <$> objs) in
      match concat_rows new_cols objs with
      | inl e => inl e
      | inr rs => inr (mkFrame new_cols rs)
      end
  end.

(** The cell of row [r] under the (first) column labelled [c]. *)
Definition at_ (df : DataFrame) (r : nat) (c : string) : option cell :=
  row ← rows df !! r; j ← get_loc (columns df) c; row !! j.

(** Every row has one cell per column. *)
Definition rectangular (df : DataFrame) : Prop :=
  Forall (λ row, length row = length (columns df)) (rows df).

End pd.

(** ** Identifier resolver: [extract_sheet_id]

    [re.search(r'/spreadsheets/d/([a-zA-Z0-9-_]+)', url)]: the leftmost
    position where the literal is followed by at least one character of
    the class; the group is the longest run of class characters there. *)

(** The class [[a-zA-Z0-9-_]]: three ranges and the literals [-] and [_]. *)
Definition is_id_char (a : ascii) : bool :=
  let n := N_of_ascii a in
  ((97 <=? n) && (n <=? 122) || (65 <=? n) && (n <=? 90)
   || (48 <=? n) && (n <=? 57) || (n =? 45) || (n =? 95))%N.

(** Greedy [[a-zA-Z0-9-_]*] at the head of [s]. *)
Fixpoint id_run (s : string) : string :=
  match s with
  | String a r => if is_id_char a then String a (id_run r) else ""
  | "" => ""
  end.

(** What is left of [s] after the literal [p], when [s] starts with it. *)
Fixpoint after_literal (p s : string) : option string :=
  match p, s with
  | "", _ => Some s
  | String a p', String b s' => if decide (a = b) then after_literal p' s' else None
  | String _ _, "" => None
  end.

Definition url_literal : string := "/spreadsheets/d/".

(** The pattern anchored at the head of [s]; the result is group 1. *)
Definition match_at (s : string) : option string :=
  match after_literal url_literal s with
  | Some rest => let g := id_run rest in if decide (g = "") then None else Some g
  | None => None
  end.

Fixpoint re_search (s : string) : option string :=
  match match_at s with
  | Some g => Some g
  | None => match s with
            | "" => None
            | String _ r => re_search r
            end
  end.

Definition extract_sheet_id (url : string) : exn + string :=
  match re_search url with
  | None => inl (ValueError ("Invalid Google Sheets URL format: " +:+ url))
  | Some g => inr g
  end.

(** ** Header names

    The loop over [enumerate(headers)] that builds [unique_headers] with
    the [header_count] dict; both channels run it, with their own way of
    naming a cell ([name i header]). *)

Section HeaderLoop.
Context {A : Type} (name : nat → A → string).

Fixpoint header_loop (i : nat) (headers : list A)
    (unique_headers : list string) (header_count : gmap string nat)
  : list string :=
  match headers with
  | [] => unique_headers
  | header :: rest =>
      let header := name i header in
      match header_count !! header with
      | Some n =>
          header_loop (S i) rest
            (unique_headers ++ [header +:+ "_" +:+ pretty (n + 1)])
            (<[header := n + 1]> header_count)
      | None =>
          header_loop (S i) rest (unique_headers ++ [header])
            (<[header := 0]> header_count)
      end
  end.
End HeaderLoop.

(** [not header or header.strip() == ''] *)
Definition is_blank (header : string) : bool :=
  bool_decide (header = "") || bool_decide (PyStr.strip header = "").

(** Authenticated channel: a blank cell becomes [Column_<i+1>]. *)
Definition api_header_name (i : nat) (header : string) : string :=
  if is_blank header then "Column_" +:+ pretty (i + 1) else header.

Definition unique_headers (headers : list string) : list string :=
  header_loop api_header_name 0 headers [] ∅.

(** Public channel: [str(header) if pd.notnull(header) else f'Column_{i+1}'];
    a null label is [None]. *)
Definition csv_header_name (i : nat) (header : option string) : string :=
  match header with
  | Some s => s
  | None => "Column_" +:+ pretty (i + 1)
  end.

Definition csv_unique_headers (labels : list (option string)) : list string :=
  header_loop csv_header_name 0 labels [] ∅.

(** ** Table normaliser (authenticated channel, src/app.py 268-305) *)

(** [max(len(row) for row in values) if values else 0] *)
Definition max_cols (values : list (list string)) : nat :=
  foldr Nat.max 0 (length <$> values).

(** [row + [''] * (max_cols - len(row))] for every row. *)
Definition padded_values (values : list (list string)) : list (list string) :=
  map (λ row, row ++ replicate (max_cols values - length row) "") values.

Definition beyond_range_notice (header_row : Z) : msg :=
  st_error ("Header row " +:+ pretty header_row
            +:+ " is beyond the data range. Using row 1 instead.").

(** [header_idx] after the range check, with the notice it may write. *)
Definition header_idx (padded : list (list string)) (header_row : Z) : M Z :=
  let header_idx := (header_row - 1)%Z in
  if (Z.of_nat (length padded) <=? header_idx)%Z
  then do! tell (beyond_range_notice header_row) in ret 0%Z
  else ret header_idx.

(** [padded_values[header_idx] if header_idx < len(padded_values) else []] *)
Definition headers_at (padded : list (list string)) (header_idx : Z)
  : M (list string) :=
  if (header_idx <? Z.of_nat (length padded))%Z then
    match py_index padded header_idx with
    | Some row => ret row
    | None => raise (IndexError "list index out of range")
    end
  else ret [].

(** [padded_values[data_start_idx:] if data_start_idx < len(padded_values) else []] *)
Definition data_rows (padded : list (list string)) (header_idx : Z)
  : list (list string) :=
  let data_start_idx := (header_idx + 1)%Z in
  if (data_start_idx <? Z.of_nat (length padded))%Z
  then py_slice_from padded data_start_idx
  else [].

Definition source_column : string := "_source_sheet".

Definition normalize (values : list (list string)) (header_row : Z)
    (provenance : string) : M DataFrame :=
  let padded := padded_values values in
  let! idx := header_idx padded header_row in
  let! headers := headers_at padded idx in
  let unique := unique_headers headers in
  let data := data_rows padded idx in
  let! df := lift (pd.new_DataFrame data unique) in
  ret (pd.setitem df source_column (Text provenance)).

(** ** Grid fetcher: [fetch_sheet_data] *)

(** The authenticated channel: [values().get(spreadsheetId, range).execute()]
    followed by [result.get('values', [])], or the exception it raises. *)
Definition SheetsService : Type := string → string → exn + list (list string).

(** What [pd.read_csv] returns before the program renames the columns:
    labels that may be null, and the data rows. *)
Record CsvFrame := mkCsv {
  csv_columns : list (option string);
  csv_rows : list (list cell)
}.

(** [sheet_name or 'Sheet1'], as the messages print it. *)
Definition shown_name (sheet_name : option string) : string :=
  PyStr.or_else sheet_name "Sheet1".

(** [sheet_name or f"Sheet_{sheet_id}_gid{gid}"] *)
Definition provenance (sheet_id : string) (sheet_name : option string)
    (gid : string) : string :=
  PyStr.or_else sheet_name ("Sheet_" +:+ sheet_id +:+ "_gid" +:+ gid).

Definition empty_notice (sheet_name : option string) : msg :=
  st_warning ("⚠️ Sheet '" +:+ shown_name sheet_name +:+ "' is empty.").

(** [f"'{sheet_name}'" if sheet_name else "Sheet1"] *)
Definition range_name (sheet_name : option string) : string :=
  if PyStr.truthy sheet_name then "'" +:+ PyStr.fmt sheet_name +:+ "'"
  else "Sheet1".

Definition fetch_api (service : SheetsService) (sheet_id : string)
    (sheet_name : option string) (gid : string) (header_row : Z) : M DataFrame :=
  try_except
    (let! values := lift (service sheet_id (range_name sheet_name)) in
     if decide (values = []) then
       do! tell (empty_notice sheet_name) in ret pd.empty_frame
     else normalize values header_row (provenance sheet_id sheet_name gid))
    (λ e,
       match e with
       | HttpError status =>
           do! tell (st_error
                 (if (status =? 403)%Z then
                    "❌ Access denied to sheet '" +:+ shown_name sheet_name
                    +:+ "'. Please check your permissions."
                  else if (status =? 404)%Z then
                    "❌ Sheet '" +:+ shown_name sheet_name +:+ "' not found."
                  else "❌ API Error: HTTP " +:+ pretty status)) in
           ret pd.empty_frame
       | _ =>
           do! tell (st_error ("❌ Error fetching sheet '" +:+ shown_name sheet_name
                               +:+ "': " +:+ exn_str e)) in
           ret pd.empty_frame
       end).

Definition html_shell_error : exn :=
  ValueError "Sheet may not be publicly accessible. Received HTML instead of CSV.".

Section PublicChannel.
(** [requests.get(url, timeout=30)] with [raise_for_status()]: the body
    text, or the exception raised. *)
Context (requests_get : string → exn + string).
(** [pd.read_csv(io.StringIO(text), header=h)] *)
Context (read_csv : string → Z → exn + CsvFrame).

Definition csv_url (sheet_id gid : string) : string :=
  "https://docs.google.com/spreadsheets/d/" +:+ sheet_id
  +:+ "/export?format=csv&gid=" +:+ gid.

Definition fetch_public (sheet_id : string) (sheet_name : option string)
    (gid : string) (header_row : Z) : M DataFrame :=
  try_except
    (let! text := lift (requests_get (csv_url sheet_id gid)) in
     do! (if PyStr.startswith (PyStr.strip text) "<!DOCTYPE html>"
          then raise html_shell_error else ret tt) in
     let! df := lift (read_csv text (header_row - 1)%Z) in
     let unique := csv_unique_headers (csv_columns df) in
     let df := mkFrame unique (csv_rows df) in
     ret (pd.setitem df source_column
            (Text (provenance sheet_id sheet_name gid))))
    (λ e,
       match e with
       | RequestException m =>
           do! (if PyStr.contains "401" m || PyStr.contains "Unauthorized" m then
                  do! tell (st_error ("❌ Sheet '" +:+ shown_name sheet_name
                            +:+ "' is private and requires authentication.")) in
                  tell (st_info "💡 Please use the 'Connect to Google Sheets' button to authenticate.")
                else
                  tell (st_error ("❌ Failed to fetch sheet data: " +:+ m))) in
           ret pd.empty_frame
       | EmptyDataError _ =>
           do! tell (empty_notice sheet_name) in ret pd.empty_frame
       | _ =>
           do! tell (st_error ("❌ Error processing sheet '"
                               +:+ shown_name sheet_name +:+ "': " +:+ exn_str e)) in
           ret pd.empty_frame
       end).

(** [if self.sheets_service: ... ; if not self.sheets_service: ...] *)
Definition fetch_sheet_data (sheets_service : option SheetsService)
    (sheet_id : string) (sheet_name : option string) (gid : string)
    (header_row : Z) : M DataFrame :=
  match sheets_service with
  | Some service => fetch_api service sheet_id sheet_name gid header_row
  | None => fetch_public sheet_id sheet_name gid header_row
  end.
End PublicChannel.

(** ** Combiner state *)

Record Sheet := mkSheet {
  s_id : string;
  s_gid : string;
  s_name : option string;
  s_display_name : option string;
  s_data : DataFrame;
  s_header_row : Z
}.

Record Combiner := mkCombiner {
  sheets_data : list Sheet;
  combined_data : DataFrame;
  sheets_service : option SheetsService
}.

(** [__init__] *)
Definition new_combiner : Combiner := mkCombiner [] pd.empty_frame None.

Definition set_sheets_service (self : Combiner) (service : option SheetsService)
  : Combiner :=
  mkCombiner (sheets_data self) (combined_data self) service.

(** A directory entry [{"gid": ..., "name": ...}]. *)
Record SheetInfo := mkInfo {
  info_gid : string;
  info_name : option string
}.

Section Combiner.
Context (requests_get : string → exn + string).
Context (read_csv : string → Z → exn + CsvFrame).

Definition add_sheet (self : Combiner) (sheet_id : string)
    (sheet_info : SheetInfo) (header_row : Z) (custom_name : option string)
  : M (bool * Combiner) :=
  let sheet_name := info_name sheet_info in
  let gid := info_gid sheet_info in
  try_except
    (let! df := fetch_sheet_data requests_get read_csv (sheets_service self)
                  sheet_id sheet_name gid header_row in
     if negb (pd.empty df) then
       let display_name :=
         if PyStr.truthy custom_name then custom_name else sheet_name in
       let sheet := mkSheet sheet_id gid sheet_name display_name df header_row in
       ret (true, mkCombiner (sheets_data self ++ [sheet]) (combined_data self)
                    (sheets_service self))
     else
       do! tell (st_warning ("⚠️ Sheet '" +:+ PyStr.fmt sheet_name
                             +:+ "' is empty or inaccessible.")) in
       ret (false, self))
    (λ e,
       do! tell (st_error ("❌ Error adding sheet '" +:+ PyStr.fmt sheet_name
                           +:+ "': " +:+ exn_str e)) in
       ret (false, self)).
End Combiner.

(** [self.sheets_data.pop(i)], the removal the page performs. *)
Definition remove_sheet (self : Combiner) (i : nat) : exn + Combiner :=
  if decide (i < length (sheets_data self)) then
    inr (mkCombiner (delete i (sheets_data self)) (combined_data self)
           (sheets_service self))
  else inl (IndexError "pop index out of range").

Definition combine_sheets (self : Combiner) : exn + DataFrame * Combiner :=
  match sheets_data self with
  | [] => inl (ValueError "No sheets added yet.")
  | _ =>
      match pd.concat (s_data <$> sheets_data self) with
      | inl e => inl e
      | inr combined =>
          inr (combined,
               mkCombiner (sheets_data self) combined (sheets_service self))
      end
  end.

Record SheetStat := mkStat {
  stat_name : option string;
  stat_rows : nat;
  stat_header_row : Z
}.

Record Summary := mkSummary {
  sum_columns : list string;
  total_rows : nat;
  total_columns : nat;
  sum_sheets : list SheetStat
}.

(** The body of the [try]; nothing in it can raise, so the [except] branch
    that returns [{"error": ...}] is never taken. *)
Definition get_summary (self : Combiner) : Summary :=
  let columns := columns (combined_data self) in
  let total_rows := pd.len (combined_data self) in
  let total_columns := length columns in
  let sheet_stats :=
    map (λ sheet, mkStat (s_display_name sheet) (pd.len (s_data sheet))
                    (s_header_row sheet)) (sheets_data self) in
  mkSummary columns total_rows total_columns sheet_stats.

(** ** Sheet directory: [get_sheet_info] *)

(** The [properties] of one worksheet in the metadata answer; a key that is
    absent reads as [None]. *)
Record SheetProps := mkProps {
  prop_sheetId : option Z;
  prop_title : option string
}.

(** [str(prop.get('sheetId'))] *)
Definition str_sheetId (x : option Z) : string :=
  match x with
  | Some z => pretty z
  | None => "None"
  end.

(** The four patterns tried on the public page, in their order; each has
    two groups. *)
Inductive pattern :=
| sheetName_then_sheetId
| title_then_sheetId
| name_then_sheetId
| properties_sheetId_then_title.

Definition patterns : list pattern :=
  [sheetName_then_sheetId; title_then_sheetId; name_then_sheetId;
   properties_sheetId_then_title].

(** The entries one pattern contributes: the last pattern has the gid in
    its first group, the others the name. *)
Definition entries_of (p : pattern) (matches : list (string * string))
  : list SheetInfo :=
  match p with
  | properties_sheetId_then_title =>
      map (λ m, mkInfo m.1 (Some m.2)) matches
  | _ => map (λ m, mkInfo m.2 (Some m.1)) matches
  end.

(** [{"gid": "0", "name": "Sheet1"}] *)
Definition default_entry : SheetInfo := mkInfo "0" (Some "Sheet1").

Section SheetDirectory.
(** [spreadsheets().get(spreadsheetId=..., fields='sheets.properties')
    .execute()] of the service the combiner holds, read through
    [.get('sheets', [])] and [.get('properties', {})]. *)
Context (spreadsheets_get : string → exn + list SheetProps).
Context (requests_get : string → exn + string).
(** [re.findall(pattern, text)] *)
Context (re_findall : pattern → string → list (string * string)).

(** The loop over [patterns]: it stops at the first pattern after which
    [sheets_info] is non-empty. *)
Fixpoint scan_patterns (ps : list pattern) (text : string)
    (sheets_info : list SheetInfo) : list SheetInfo :=
  match ps with
  | [] => sheets_info
  | p :: rest =>
      let sheets_info := sheets_info ++ entries_of p (re_findall p text) in
      match sheets_info with
      | [] => scan_patterns rest text sheets_info
      | _ => sheets_info
      end
  end.

Definition edit_url (sheet_id : string) : string :=
  "https://docs.google.com/spreadsheets/d/" +:+ sheet_id +:+ "/edit".

Definition sheet_info_api (sheet_id : string) : M (list SheetInfo) :=
  try_except
    (let! sheets := lift (spreadsheets_get sheet_id) in
     let sheets_info :=
       map (λ prop, mkInfo (str_sheetId (prop_sheetId prop)) (prop_title prop))
         sheets in
     match sheets_info with
     | [] => do! tell (st_warning "No sheets found via API.") in ret []
     | _ =>
         do! tell (st_success ("✅ Found " +:+ pretty (length sheets_info)
                               +:+ " sheets using Google Sheets API")) in
         ret sheets_info
     end)
    (λ e,
       match e with
       | HttpError status =>
           do! tell (st_error
                 (if (status =? 403)%Z then
                    "❌ Access denied. Please ensure you have 'Viewer' access to this sheet"
                  else if (status =? 404)%Z then
                    "❌ Spreadsheet not found. Please check the URL."
                  else "❌ API error: HTTP " +:+ pretty status)) in
           ret []
       | _ =>
           do! tell (st_error ("❌ Unexpected API error: " +:+ exn_str e)) in
           ret []
       end).

Definition sheet_info_public (sheet_id : string) : M (list SheetInfo) :=
  try_except
    (let! text := lift (requests_get (edit_url sheet_id)) in
     let sheets_info := scan_patterns patterns text [] in
     match sheets_info with
     | [] =>
         do! tell (st_warning "⚠️ No sheets found. This may be a private sheet requiring authentication.") in
         ret [default_entry]
     | _ =>
         do! tell (st_success ("✅ Found " +:+ pretty (length sheets_info)
                               +:+ " sheets using public URL parsing")) in
         ret sheets_info
     end)
    (λ e,
       match e with
       | RequestException m =>
           do! (if PyStr.contains "401" m || PyStr.contains "Unauthorized" m then
                  do! tell (st_error "❌ This sheet is private and requires authentication.") in
                  tell (st_info "💡 Please use the 'Connect to Google Sheets' button to authenticate.")
                else
                  tell (st_error ("❌ Failed to fetch sheet info: " +:+ m))) in
           ret []
       | _ =>
           do! tell (st_error ("❌ Unexpected error: " +:+ exn_str e)) in
           ret []
       end).

Definition get_sheet_info (self : Combiner) (sheet_id : string)
  : M (list SheetInfo) :=
  match sheets_service self with
  | Some _ => sheet_info_api sheet_id
  | None => sheet_info_public sheet_id
  end.
End SheetDirectory.

(** ** The page's use of the combiner (src/app.py, [main]) *)

(** [len([s for s in sheets_data if not s['data'].empty]) == 0]: the
    "Combine All Sheets" button is disabled. *)
Definition disable_combine (self : Combiner) : bool :=
  length (filter (λ s, pd.empty (s_data s) = false) (sheets_data self)) =? 0.

(** * Properties *)

(** ** Header normalisation as two passes *)

(** Pass one: a blank cell at 1-based position [i] becomes [Column_<i>]. *)
Definition fill_blanks (headers : list string) : list string :=
  imap (λ i h, if is_blank h then "Column_" +:+ pretty (S i) else h) headers.

Definition occurrences (h : string) (l : list string) : nat :=
  length (filter (λ x, x = h) l).

(** The name given to [h] when [k] equal names precede it. *)
Definition suffixed (k : nat) (h : string) : string :=
  match k with
  | 0 => h
  | S _ => h +:+ "_" +:+ pretty k
  end.

(** Pass two: left to right, the first occurrence is kept and the k-th
    later occurrence of a name gets the suffix [_<k>]. *)
Definition dedup (names : list string) : list string :=
  imap (λ j h, suffixed (occurrences h (take j names)) h) names.

(** [header_count] after the names [seen] have been processed. *)
Definition counts_of (seen : list string) (header_count : gmap string nat) : Prop :=
  ∀ h, header_count !! h = match occurrences h seen with
                           | 0 => None
                           | S k => Some k
                           end.

(** The header index [normalize] works with, as a value: row 1 when the
    requested row lies beyond the [n] rows there are. *)
Definition clamp_idx (n : nat) (header_row : Z) : Z :=
  if (Z.of_nat n <=? header_row - 1)%Z then 0%Z else (header_row - 1)%Z.

(** ** The URL pattern, relationally *)

(** What follows the greedy run of class characters at the head of [s]. *)
Fixpoint after_run (s : string) : string :=
  match s with
  | String a r => if is_id_char a then after_run r else s
  | "" => ""
  end.

Fixpoint all_id (s : string) : bool :=
  match s with
  | String a r => is_id_char a && all_id r
  | "" => true
  end.

(** The run cannot be extended into [rest]. *)
Definition stops (rest : string) : Prop :=
  match rest with
  | String a _ => is_id_char a = false
  | "" => True
  end.

(** [s] starts with [/spreadsheets/d/] followed by the non-empty maximal
    run [g] of class characters. *)
Definition matches_here (s g : string) : Prop :=
  ∃ rest, s = url_literal +:+ g +:+ rest ∧ g ≠ "" ∧ all_id g = true ∧ stops rest.

(** [g] is the group of the leftmost match in [url]. *)
Definition leftmost_match (url g : string) : Prop :=
  ∃ pre s,
    url = pre +:+ s ∧ matches_here s g
    ∧ ∀ pre' s' g', url = pre' +:+ s' → matches_here s' g' →
                     String.length pre ≤ String.length pre'.

(** The pattern as the specification words it, [/spreadsheets/d/<id>/]:
    the identifier must be closed by a slash. *)
Definition spec_match_at (s : string) : option string :=
  match after_literal url_literal s with
  | Some rest =>
      let g := id_run rest in
      if decide (g = "") then None
      else match after_run rest with
           | String "/" _ => Some g
           | _ => None
           end
  | None => None
  end.

Fixpoint spec_search (s : string) : option string :=
  match spec_match_at s with
  | Some g => Some g
  | None => match s with
            | "" => None
            | String _ r => spec_search r
            end
  end.

Definition spec_extract_id (url : string) : exn + string :=
  match spec_search url with
  | None => inl (ValueError ("Invalid Google Sheets URL format: " +:+ url))
  | Some g => inr g
  end.

(** ** Combination, as the specification words it *)




Definition plain_bc : DataFrame := mkFrame ["B"; "C"] [[Text "3"; Text "4"]].
Definition holding (frames : list DataFrame) : Combiner :=
  mkCombiner ((λ df, mkSheet "1A2b3C" "0" (Some "S") (Some "S") df 1) <$> frames)
    pd.empty_frame None.

(** ** Sample collaborators

    Concrete channels on which the fetcher is run in the examples. *)

Definition nl : string := String (ascii_of_nat 10) "".

(** [s.split(sep)] for a one-character separator. *)
Fixpoint split_on (sep : ascii) (s : string) : list string :=
  match s with
  | "" => [""]
  | String a r =>
      if decide (a = sep) then "" :: split_on sep r
      else match split_on sep r with
           | [] => [String a ""]
           | w :: ws => String a w :: ws
           end
  end.

(** A reader for plain comma-separated text (no quoting, every header
    cell named), standing for [pd.read_csv] on such text: blank lines are
    skipped, an empty text raises [EmptyDataError], a header row past the
    last line raises [ParserError], cells are kept as text.  It is a
    sample collaborator for running the public channel, not a model of
    pandas: it does not infer numeric dtypes (pandas reads [1] as an int64,
    here it stays the text), it does not rename a repeated header name
    ([a], [a.1]) and its message for a negative header is abridged.  The
    general statements about the public channel take the reader as a
    parameter and do not use it. *)
Definition simple_read_csv (text : string) (header : Z) : exn + CsvFrame :=
  let lines := filter (λ l, l ≠ "") (split_on (ascii_of_nat 10) text) in
  match lines with
  | [] => inl (EmptyDataError "No columns to parse from file")
  | _ =>
      if (header <? 0)%Z then
        inl (ValueError "Passing negative integer to header is invalid.")
      else
        match lines !! Z.to_nat header with
        | None =>
            inl (ParserError ("Passed header=" +:+ pretty header +:+ " but only "
                              +:+ pretty (length lines) +:+ " lines in file"))
        | Some h =>
            inr (mkCsv (Some <$> split_on "," h)
                   (map (λ l, Text <$> split_on "," l)
                      (drop (Z.to_nat header + 1) lines)))
        end
  end.

(** A public document of two lines, and a private one answered by the
    sign-in page. *)
Definition csv_body : string := "a,b" +:+ nl +:+ "1,2" +:+ nl.
Definition html_body : string := nl +:+ "<!DOCTYPE html><html><head></head></html>".

Definition get_csv : string → exn + string := λ _, inr csv_body.
Definition get_html : string → exn + string := λ _, inr html_body.

(** An authenticated service holding the same two rows in every range. *)
Definition two_row_service : SheetsService := λ _ _, inr [["a"; "b"]; ["1"; "2"]].

(** A service whose worksheet holds a header row only. *)
Definition header_only_service : SheetsService := λ _ _, inr [["a"; "b"]].

(** Two acquired sheets with column sets {A,B} and {B,C}. *)
Definition frame_ab : DataFrame :=
  mkFrame ["A"; "B"; "_source_sheet"] [[Text "1"; Text "2"; Text "S1"]].
Definition frame_bc : DataFrame :=
  mkFrame ["B"; "C"; "_source_sheet"] [[Text "3"; Text "4"; Text "S2"]].
Definition sheet_ab : Sheet := mkSheet "1A2b3C" "0" (Some "S1") (Some "S1") frame_ab 1.
Definition sheet_bc : Sheet := mkSheet "1A2b3C" "7" (Some "S2") (Some "S2") frame_bc 1.

(** Their combination. *)
Definition frame_abc : DataFrame :=
  mkFrame ["A"; "B"; "_source_sheet"; "C"]
    [[Text "1"; Text "2"; Text "S1"; NaN];
     [NaN; Text "3"; Text "S2"; Text "4"]].

(** The per-sheet entry of the summary. *)
Definition sheet_stat (sheet : Sheet) : SheetStat :=
  mkStat (s_display_name sheet) (pd.len (s_data sheet)) (s_header_row sheet).

(** ** Further sample collaborators *)

(** A service that answers every call with HTTP 403, and a public endpoint
    that answers with HTTP 401. *)
Definition denied_service : SheetsService := λ _ _, inl (HttpError 403).
Definition get_unauthorized : string → exn + string :=
  λ _, inl (RequestException "401 Client Error: Unauthorized for url").

(** A ragged three-row grid. *)
Definition ragged_grid : list (list string) :=
  [["Name"; "Age"]; ["Bob"]; ["Ann"; "28"; "x"]].
Definition ragged_service : SheetsService := λ _ _, inr ragged_grid.

(** A public endpoint serving the ragged grid as CSV text with a blank
    line, and a reader result with a null label and a repeated one. *)
Definition csv_frame_null_label : CsvFrame :=
  mkCsv [Some "a"; None; Some "a"] [[Text "1"; Text "2"; Text "3"]].
Definition read_null_label : string → Z → exn + CsvFrame :=
  λ _ _, inr csv_frame_null_label.

(** [s] contains no underscore. *)
Definition no_underscore (s : string) : Prop :=
  ∀ pre post, s ≠ pre +:+ "_" +:+ post.

(** Every sheet the combiner holds has a non-empty table. *)
Definition held_nonempty (self : Combiner) : Prop :=
  Forall (λ s, pd.empty (s_data s) = false) (sheets_data self).

(** The display name [add_sheet] stores. *)
Definition display_name_of (custom_name sheet_name : option string)
  : option string :=
  if PyStr.truthy custom_name then custom_name else sheet_name.

(** A metadata answer with two worksheets, a page on which no pattern
    matches, and one on which the second and the fourth pattern match. *)
Definition two_tab_metadata : string → exn + list SheetProps :=
  λ _, inr [mkProps (Some 0%Z) (Some "Orders");
            mkProps (Some 1763%Z) (Some "Clients")].
Definition no_matches : pattern → string → list (string * string) := λ _ _, [].
Definition title_matches : pattern → string → list (string * string) :=
  λ p _, match p with
         | title_then_sheetId => [("Orders", "0"); ("Clients", "1763")]
         | properties_sheetId_then_title => [("5", "Other")]
         | _ => []
         end.

(** The entry made from one worksheet descriptor. *)
Definition info_of_props (prop : SheetProps) : SheetInfo :=
  mkInfo (str_sheetId (prop_sheetId prop)) (prop_title prop).

(** ** Blank cells, characterised without [strip] *)

(** [s] is the UTF-8 text of zero or more characters, each of them one of
    Python's whitespace code points. *)
Definition whitespace_only (s : string) : Prop :=
  ∃ cps, Forall (λ cp, cp ∈ PyStr.whitespace_code_points) cps
         ∧ s = PyStr.join (PyStr.chr <$> cps).

(** Cells written byte by byte: tab, line feed, carriage return, U+001C
    and space; then U+00A0 (C2 A0), U+3000 (E3 80 80) and U+2003
    (E2 80 83); and U+200B (E2 80 8B), which is not whitespace. *)
Definition ascii_blanks : string :=
  String (ascii_of_nat 9) (String (ascii_of_nat 10) (String (ascii_of_nat 13)
    (String (ascii_of_nat 28) (String (ascii_of_nat 32) "")))).
Definition unicode_blanks : string :=
  String (ascii_of_nat 194) (String (ascii_of_nat 160)
    (String (ascii_of_nat 227) (String (ascii_of_nat 128) (String (ascii_of_nat 128)
      (String (ascii_of_nat 226) (String (ascii_of_nat 128)
        (String (ascii_of_nat 131) ""))))))).
Definition zero_width_space : string :=
  String (ascii_of_nat 226) (String (ascii_of_nat 128) (String (ascii_of_nat 139) "")).

(** ** Tables of the authenticated channel *)


(** ** The effect monad *)

Lemma bind_inr {A B} log (a : A) (k : A → M B) :
  bind (log, inr a) k = (log ++ (k a).1, (k a).2).
Proof. unfold bind. by destruct (k a). Qed.

Lemma bind_inl {A B} log e (k : A → M B) : bind (log, inl e) k = (log, inl e).
Proof. done. Qed.

Lemma try_except_inr {A} log (a : A) h : try_except (log, inr a) h = (log, inr a).
Proof. done. Qed.

Lemma try_except_inl {A} log e (h : exn → M A) :
  try_except (log, inl e) h = (log ++ (h e).1, (h e).2).
Proof. unfold try_except. by destruct (h e). Qed.

(** ** String append *)

Lemma app_String a s t : String a s +:+ t = String a (s +:+ t).
Proof. done. Qed.

Lemma app_empty t : "" +:+ t = t.
Proof. done. Qed.

Ltac str_simpl :=
  repeat (rewrite app_String in * || rewrite app_empty in *).

(** ** Header loop *)

Lemma occurrences_snoc h seen x :
  occurrences h (seen ++ [x]) =
  if decide (x = h) then S (occurrences h seen) else occurrences h seen.
Proof.
  unfold occurrences. rewrite filter_app, length_app.
  rewrite filter_cons, filter_nil.
  destruct (decide (x = h)); simpl; lia.
Qed.

Lemma counts_of_empty : counts_of [] ∅.
Proof. intros h. by rewrite lookup_empty. Qed.

Lemma counts_of_fresh seen hc x :
  counts_of seen hc → hc !! x = None → counts_of (seen ++ [x]) (<[x := 0]> hc).
Proof.
  intros Hc Hx h. rewrite occurrences_snoc.
  destruct (decide (x = h)) as [->|Hne].
  - rewrite lookup_insert_eq. specialize (Hc h). rewrite Hx in Hc.
    by destruct (occurrences h seen).
  - rewrite lookup_insert_ne by done. apply Hc.
Qed.

Lemma counts_of_again seen hc x n :
  counts_of seen hc → hc !! x = Some n →
  counts_of (seen ++ [x]) (<[x := n + 1]> hc).
Proof.
  intros Hc Hx h. rewrite occurrences_snoc.
  destruct (decide (x = h)) as [->|Hne].
  - rewrite lookup_insert_eq. specialize (Hc h). rewrite Hx in Hc.
    destruct (occurrences h seen); [done|]. f_equal. injection Hc. lia.
  - rewrite lookup_insert_ne by done. apply Hc.
Qed.

Section HeaderLoopSpec.
Context {A : Type} (name : nat → A → string).

Lemma header_loop_spec (rest : list A) :
  ∀ i seen acc hc,
    counts_of seen hc →
    header_loop name i rest acc hc =
    acc ++ imap (λ j h, suffixed
                          (occurrences h
                             (seen ++ take j (imap (λ k, name (i + k)) rest))) h)
             (imap (λ k, name (i + k)) rest).
Proof.
  induction rest as [|x rest IH]; intros i seen acc hc Hc; simpl.
  { by rewrite app_nil_r. }
  rewrite Nat.add_0_r, app_nil_r.
  pose proof (Hc (name i x)) as Hx.
  assert (Hshift :
    imap ((λ k, name (i + k)) ∘ S) rest = imap (λ k, name (S i + k)) rest).
  { apply imap_ext. intros k y _. simpl. f_equal. lia. }
  destruct (occurrences (name i x) seen) as [|k] eqn:Hocc; rewrite Hx.
  - rewrite (IH (S i) (seen ++ [name i x]) _ _
               (counts_of_fresh _ _ _ Hc Hx)).
    rewrite <- app_assoc. simpl. do 2 f_equal.
    rewrite Hshift. apply imap_ext. intros j y _. simpl.
    by rewrite <- app_assoc.
  - rewrite (IH (S i) (seen ++ [name i x]) _ _
               (counts_of_again _ _ _ _ Hc Hx)).
    rewrite <- app_assoc. simpl. rewrite Nat.add_1_r. do 2 f_equal.
    rewrite Hshift. apply imap_ext. intros j y _. simpl.
    by rewrite <- app_assoc.
Qed.

Lemma header_loop_dedup (headers : list A) :
  header_loop name 0 headers [] ∅ = dedup (imap name headers).
Proof.
  rewrite (header_loop_spec headers 0 [] [] ∅ counts_of_empty). simpl.
  unfold dedup. done.
Qed.

Lemma header_loop_length (headers : list A) :
  length (header_loop name 0 headers [] ∅) = length headers.
Proof. rewrite header_loop_dedup. unfold dedup. by rewrite !length_imap. Qed.
End HeaderLoopSpec.

Lemma unique_headers_two_pass headers :
  unique_headers headers = dedup (fill_blanks headers).
Proof.
  unfold unique_headers. rewrite header_loop_dedup. f_equal.
  unfold fill_blanks, api_header_name. apply imap_ext.
  intros i h _. by rewrite Nat.add_1_r.
Qed.

Lemma fill_blanks_id headers :
  Forall (λ h, is_blank h = false) headers → fill_blanks headers = headers.
Proof.
  intros Hnb. unfold fill_blanks. apply list_eq. intros i.
  rewrite list_lookup_imap. destruct (headers !! i) as [h|] eqn:Hi; [|done].
  simpl. rewrite Forall_lookup in Hnb. by rewrite (Hnb i h Hi).
Qed.

Lemma occurrences_0 h l : h ∉ l → occurrences h l = 0.
Proof.
  unfold occurrences. induction l as [|x l IH]; [done|].
  rewrite not_elem_of_cons. intros [Hne Hl]. rewrite filter_cons.
  destruct (decide (x = h)); [congruence|]. by apply IH.
Qed.

Lemma dedup_id names : NoDup names → dedup names = names.
Proof.
  intros Hnd. unfold dedup. apply list_eq. intros j.
  rewrite list_lookup_imap. destruct (names !! j) as [h|] eqn:Hj; [|done].
  simpl. rewrite occurrences_0; [done|].
  intros Hin. apply list_elem_of_lookup in Hin as [k Hk].
  apply lookup_take_Some in Hk as [Hk Hlt].
  pose proof (NoDup_lookup _ _ _ _ Hnd Hk Hj). lia.
Qed.

(** ** Blank cells *)

Lemma chars_aux_join s :
  (PyStr.chars_aux s).1 +:+ PyStr.join (PyStr.chars_aux s).2 = s
  ∧ Forall (λ c, c ≠ "") (PyStr.chars_aux s).2.
Proof.
  induction s as [|a s [IH1 IH2]]; [done|]. simpl.
  destruct (PyStr.chars_aux s) as [p cs]. simpl in *.
  destruct (PyStr.is_continuation a); simpl.
  - rewrite app_String, IH1. done.
  - rewrite app_empty. unfold PyStr.join at 1. simpl.
    fold (PyStr.join cs). rewrite app_String, IH1. split; [done|].
    by constructor.
Qed.

Lemma join_chars s : PyStr.join (PyStr.chars s) = s.
Proof.
  destruct (chars_aux_join s) as [Hj _]. unfold PyStr.chars.
  destruct (PyStr.chars_aux s) as [p cs]. simpl in Hj.
  case_decide as Hp; [by subst|done].
Qed.

Lemma chars_nonempty s : Forall (λ c, c ≠ "") (PyStr.chars s).
Proof.
  destruct (chars_aux_join s) as [_ Hne]. unfold PyStr.chars.
  destruct (PyStr.chars_aux s) as [p cs]. simpl in Hne.
  case_decide; [done|by constructor].
Qed.

Lemma join_empty cs : Forall (λ c, c ≠ "") cs → PyStr.join cs = "" → cs = [].
Proof.
  destruct 1 as [|c cs Hc _]; [done|]. unfold PyStr.join. simpl.
  destruct c; [done|]. rewrite app_String. discriminate.
Qed.

Lemma lstrip_chars_spec cs :
  (PyStr.lstrip_chars cs = [] ↔ Forall (λ c, PyStr.isspace c = true) cs)
  ∧ PyStr.lstrip_chars cs `suffix_of` cs.
Proof.
  induction cs as [|c cs [IH1 IH2]]; [by split|]. simpl.
  destruct (PyStr.isspace c) eqn:Hc.
  - split; [|by apply suffix_cons_r]. rewrite IH1. split.
    + by constructor.
    + by intros [_ ?]%Forall_cons.
  - split; [|done]. split; [done|]. intros [? _]%Forall_cons. congruence.
Qed.

Lemma strip_empty s :
  PyStr.strip s = "" ↔ Forall (λ c, PyStr.isspace c = true) (PyStr.chars s).
Proof.
  unfold PyStr.strip. pose proof (chars_nonempty s) as Hne.
  set (cs := PyStr.chars s) in *.
  destruct (lstrip_chars_spec cs) as [H1 S1].
  destruct (lstrip_chars_spec (reverse (PyStr.lstrip_chars cs))) as [H2 S2].
  split.
  - intros Hj. apply join_empty in Hj.
    + apply (f_equal reverse) in Hj. rewrite reverse_involutive in Hj.
      simpl in Hj. apply H2 in Hj. rewrite Forall_reverse in Hj.
      apply H1. destruct (PyStr.lstrip_chars cs) as [|c r] eqn:Hl; [done|].
      exfalso. apply Forall_cons in Hj as [Hc _].
      revert Hl Hc. clear. induction cs as [|c' cs IH]; simpl; [done|].
      destruct (PyStr.isspace c') eqn:Hc'; [done|]. intros [= <- <-]. congruence.
    + rewrite Forall_reverse.
      eapply Forall_forall. intros c Hc. rewrite Forall_forall in Hne.
      apply Hne. destruct S1 as [k1 ->]. destruct S2 as [k2 Hk2].
      apply elem_of_app. right. apply elem_of_reverse. rewrite Hk2.
      apply elem_of_app. by right.
  - intros Hall. apply H1 in Hall. rewrite Hall. done.
Qed.

Lemma is_blank_chars h :
  is_blank h = true ↔ Forall (λ c, PyStr.isspace c = true) (PyStr.chars h).
Proof.
  unfold is_blank. rewrite orb_true_iff, !bool_decide_eq_true, strip_empty.
  split; [|by right]. intros [->|?]; [constructor|done].
Qed.

Lemma chars_aux_whitespace cp t cs :
  cp ∈ PyStr.whitespace_code_points →
  PyStr.chars_aux t = ("", cs) →
  PyStr.chars_aux (PyStr.chr cp +:+ t) = ("", PyStr.chr cp :: cs).
Proof.
  intros Hcp Ht. unfold PyStr.whitespace_code_points in Hcp.
  repeat (apply elem_of_cons in Hcp as [->|Hcp];
          [vm_compute PyStr.chr; str_simpl; simpl; rewrite Ht; reflexivity|]).
  by apply elem_of_nil in Hcp.
Qed.

Lemma chars_join_whitespace cps :
  Forall (λ cp, cp ∈ PyStr.whitespace_code_points) cps →
  PyStr.chars (PyStr.join (PyStr.chr <$> cps)) = PyStr.chr <$> cps.
Proof.
  intros Hcps.
  assert (PyStr.chars_aux (PyStr.join (PyStr.chr <$> cps))
          = ("", PyStr.chr <$> cps)) as Haux.
  { induction Hcps as [|cp cps Hcp _ IH]; [done|].
    rewrite fmap_cons. unfold PyStr.join. simpl. fold (PyStr.join (PyStr.chr <$> cps)).
    by apply chars_aux_whitespace. }
  unfold PyStr.chars. by rewrite Haux.
Qed.

Lemma is_blank_whitespace_only h : is_blank h = true ↔ whitespace_only h.
Proof.
  rewrite is_blank_chars. split.
  - intros Hall. rewrite <- (join_chars h).
    induction Hall as [|c cs Hc _ (cps & Hcps & IH)].
    + by exists [].
    + unfold PyStr.isspace in Hc. apply bool_decide_eq_true in Hc.
      apply list_elem_of_fmap in Hc as (cp & -> & Hcp).
      exists (cp :: cps). split; [by constructor|].
      rewrite fmap_cons. unfold PyStr.join in *. simpl. by rewrite IH.
  - intros (cps & Hcps & ->). rewrite (chars_join_whitespace _ Hcps).
    apply Forall_fmap. eapply Forall_impl; [exact Hcps|]. simpl.
    intros cp Hcp. unfold PyStr.isspace. apply bool_decide_eq_true.
    by apply list_elem_of_fmap_2.
Qed.

(** C2: header normalisation first replaces each blank or whitespace-only
    cell at 1-based position i by [Column_<i>], then deduplicates left to
    right, keeping the first occurrence of a name and giving its k-th later
    occurrence the suffix [_<k>]; headers ["A","A","","A"] become
    ["A","A_1","Column_3","A_2"]; and on a list of pairwise distinct
    non-blank names the normalisation is the identity.  A cell counts as
    blank exactly when it is empty or made of whitespace characters only
    (Python's [str.isspace] set, beyond ASCII too); a name with spaces
    around it is not blank and is kept with its spaces. *)
Theorem header_normalisation (headers : list string) :
  unique_headers headers = dedup (fill_blanks headers)
  ∧ unique_headers ["A"; "A"; ""; "A"] = ["A"; "A_1"; "Column_3"; "A_2"]
  ∧ (NoDup headers → Forall (λ h, is_blank h = false) headers →
     unique_headers headers = headers)
  ∧ (∀ h, is_blank h = true ↔ whitespace_only h)
  ∧ unique_headers [" A "; "   "; ascii_blanks; unicode_blanks;
                    zero_width_space; " A "]
    = [" A "; "Column_2"; "Column_3"; "Column_4"; zero_width_space; " A _1"].
Proof.
  split; [apply unique_headers_two_pass|]. split; [by vm_compute|].
  split; [|split; [apply is_blank_whitespace_only|by vm_compute]].
  intros Hnd Hnb.
  by rewrite unique_headers_two_pass, (fill_blanks_id _ Hnb), (dedup_id _ Hnd).
Qed.

Lemma header_normalisation_witness :
  NoDup ["Name"; "Age city"; "A_1"]
  ∧ Forall (λ h, is_blank h = false) ["Name"; "Age city"; "A_1"]
  ∧ unique_headers ["Name"; "Age city"; "A_1"] = ["Name"; "Age city"; "A_1"].
Proof.
  assert (Hnd : NoDup ["Name"; "Age city"; "A_1"]).
  { apply (bool_decide_unpack _). vm_compute. exact I. }
  assert (Hnb : Forall (λ h, is_blank h = false) ["Name"; "Age city"; "A_1"]).
  { repeat constructor. }
  split; [exact Hnd|]. split; [exact Hnb|].
  exact (proj1 (proj2 (proj2 (header_normalisation _))) Hnd Hnb).
Defined.

(** ** Padding and the normalised table *)

Lemma max_cols_ge values row :
  row ∈ values → length row ≤ max_cols values.
Proof.
  unfold max_cols. induction values as [|r values IH]; [by intros ?%elem_of_nil|].
  rewrite elem_of_cons, fmap_cons. simpl. intros [->|Hin]; [lia|].
  specialize (IH Hin). lia.
Qed.


Lemma padded_values_width values :
  Forall (λ row, length row = max_cols values) (padded_values values).
Proof.
  unfold padded_values. apply Forall_forall. intros row' Hin.
  apply list_elem_of_fmap in Hin as (row & -> & Hin).
  rewrite length_app, length_replicate.
  pose proof (max_cols_ge _ _ Hin). lia.
Qed.

Lemma padded_values_length values :
  length (padded_values values) = length values.
Proof. unfold padded_values. by rewrite length_map. Qed.

Lemma data_rows_subset padded idx row :
  row ∈ data_rows padded idx → row ∈ padded.
Proof.
  unfold data_rows, py_slice_from.
  repeat case_match; try (by intros ?%elem_of_nil);
    intros Hin; eapply subseteq_drop; exact Hin.
Qed.

Lemma header_idx_eq padded header_row :
  header_idx padded header_row =
  (if (Z.of_nat (length padded) <=? header_row - 1)%Z
   then [beyond_range_notice header_row] else [],
   inr (clamp_idx (length padded) header_row)).
Proof. unfold header_idx, clamp_idx. by case_match. Qed.

Lemma clamp_idx_range n header_row :
  0 < n → (1 ≤ header_row)%Z →
  (0 ≤ clamp_idx n header_row < Z.of_nat n)%Z.
Proof. unfold clamp_idx. intros. case_match; lia. Qed.

Lemma headers_at_in_range padded idx :
  (0 ≤ idx < Z.of_nat (length padded))%Z →
  ∃ row, padded !! Z.to_nat idx = Some row ∧ headers_at padded idx = ([], inr row).
Proof.
  intros Hidx. unfold headers_at, py_index.
  destruct (lookup_lt_is_Some_2 padded (Z.to_nat idx)) as [row Hrow]; [lia|].
  exists row. split; [done|].
  rewrite (proj2 (Z.ltb_lt _ _)) by lia.
  rewrite (proj2 (Z.leb_le _ _)) by lia. by rewrite Hrow.
Qed.

Lemma new_DataFrame_ok data cols :
  Forall (λ row, length row = length cols) data →
  pd.new_DataFrame data cols = inr (mkFrame cols (map (map Text) data)).
Proof.
  intros Hw. unfold pd.new_DataFrame.
  replace (forallb _ data) with true; [done|].
  symmetry. apply forallb_forall. intros row Hin.
  apply Nat.eqb_eq. rewrite Forall_forall in Hw. apply Hw.
  by apply list_elem_of_In.
Qed.

Lemma unique_headers_length headers :
  length (unique_headers headers) = length headers.
Proof. apply header_loop_length. Qed.

Lemma get_loc_lt cols c j : pd.get_loc cols c = Some j → j < length cols.
Proof.
  revert j. induction cols as [|c' cols IH]; intros j; simpl; [done|].
  case_decide; [intros [= <-]; lia|].
  destruct (pd.get_loc cols c) as [k|]; simpl; [|done].
  intros [= <-]. specialize (IH k eq_refl). lia.
Qed.

Lemma get_loc_elem cols c : c ∈ cols → is_Some (pd.get_loc cols c).
Proof.
  induction cols as [|c' cols IH]; [by intros ?%elem_of_nil|].
  rewrite elem_of_cons. simpl. case_decide; [by eexists|].
  intros [?|Hin]; [congruence|]. destruct (IH Hin) as [k ->]. by eexists.
Qed.

Lemma get_loc_lookup cols c j : pd.get_loc cols c = Some j → cols !! j = Some c.
Proof.
  revert j. induction cols as [|c' cols IH]; intros j; simpl; [done|].
  case_decide; [intros [= <-]; by subst|].
  destruct (pd.get_loc cols c) as [k|]; simpl; [|done].
  intros [= <-]. by apply IH.
Qed.

Lemma get_loc_fresh cols c : c ∉ cols → pd.get_loc (cols ++ [c]) c = Some (length cols).
Proof.
  induction cols as [|c' cols IH]; simpl.
  - intros _. by rewrite decide_True.
  - rewrite not_elem_of_cons. intros [Hne Hnin].
    rewrite decide_False by done. by rewrite IH.
Qed.

Lemma setitem_rectangular df key value :
  pd.rectangular df → pd.rectangular (pd.setitem df key value).
Proof.
  unfold pd.rectangular, pd.setitem. intros Hr.
  case_decide; simpl; apply Forall_fmap; eapply Forall_impl; try exact Hr;
    simpl; intros row Hrow.
  - rewrite length_zip_with. lia.
  - rewrite !length_app. simpl. lia.
Qed.

Lemma setitem_len df key value : pd.len (pd.setitem df key value) = pd.len df.
Proof. unfold pd.len, pd.setitem. case_decide; simpl; by rewrite length_map. Qed.

Lemma setitem_at df key value r :
  pd.rectangular df → r < pd.len df →
  pd.at_ (pd.setitem df key value) r key = Some value.
Proof.
  unfold pd.rectangular, pd.len, pd.at_, pd.setitem. intros Hr Hlt.
  destruct (lookup_lt_is_Some_2 (rows df) r Hlt) as [row Hrow].
  pose proof (proj1 (Forall_lookup _ _) Hr r row Hrow) as Hw. simpl in Hw.
  case_decide as Hin; simpl; rewrite list_lookup_fmap, Hrow; simpl.
  - destruct (get_loc_elem _ _ Hin) as [j Hj]. rewrite Hj. simpl.
    pose proof (get_loc_lt _ _ _ Hj) as Hjl.
    pose proof (get_loc_lookup _ _ _ Hj) as Hc.
    destruct (lookup_lt_is_Some_2 row j) as [x Hx]; [lia|].
    rewrite lookup_zip_with, Hc. simpl. rewrite Hx. simpl.
    by rewrite decide_True.
  - rewrite (get_loc_fresh _ _ Hin). simpl.
    rewrite lookup_app_r by lia. rewrite Hw, Nat.sub_diag. done.
Qed.

Lemma normalize_eq values header_row prov :
  values ≠ [] → (1 ≤ header_row)%Z →
  ∃ headers,
    padded_values values
      !! Z.to_nat (clamp_idx (length values) header_row) = Some headers
    ∧ normalize values header_row prov =
      (if (Z.of_nat (length values) <=? header_row - 1)%Z
       then [beyond_range_notice header_row] else [],
       inr (pd.setitem
              (mkFrame (unique_headers headers)
                 (map (map Text)
                    (data_rows (padded_values values)
                       (clamp_idx (length values) header_row))))
              source_column (Text prov))).
Proof.
  intros Hne Hpos. unfold normalize.
  rewrite header_idx_eq, padded_values_length.
  assert (0 < length values) as Hlen by (destruct values; [done|simpl; lia]).
  pose proof (clamp_idx_range _ _ Hlen Hpos) as Hidx.
  destruct (headers_at_in_range (padded_values values)
              (clamp_idx (length values) header_row)) as (headers & Hh & Hat).
  { by rewrite padded_values_length. }
  exists headers. split; [done|].
  pose proof (padded_values_width values) as Hw.
  rewrite Forall_forall in Hw.
  assert (length headers = max_cols values) as Hhl.
  { apply Hw. by eapply list_elem_of_lookup_2. }
  rewrite bind_inr, Hat, bind_inr. unfold lift.
  rewrite new_DataFrame_ok.
  2:{ apply Forall_forall. intros row Hin. rewrite unique_headers_length, Hhl.
      apply Hw. by eapply data_rows_subset. }
  rewrite bind_inr. simpl. by rewrite !app_nil_r.
Qed.



(** ** Column names of the normalised table *)

Lemma suffixed_nonempty k h : h ≠ "" → suffixed k h ≠ "".
Proof. destruct k; [done|]. destruct h; [done|]. simpl. discriminate. Qed.

Lemma unique_headers_nonempty headers :
  Forall (λ h, h ≠ "") (unique_headers headers).
Proof.
  rewrite unique_headers_two_pass. unfold dedup, fill_blanks.
  apply Forall_lookup. intros j h. rewrite !list_lookup_imap.
  destruct (headers !! j) as [h0|]; [|done]. simpl. intros [= <-].
  apply suffixed_nonempty. unfold is_blank.
  destruct (bool_decide_reflect (h0 = "")); simpl; [done|].
  by case_bool_decide.
Qed.

(** C4 (evaluation of the code): the column names are never empty, but they
    are not always pairwise distinct: with header row ["A","A_1","A"] the
    second "A" is renamed to "A_1", which the row already contains. *)
Theorem duplicate_columns_after_dedup :
  (∀ headers, Forall (λ h, h ≠ "") (unique_headers headers))
  ∧ ∃ df,
      normalize [["A"; "A_1"; "A"]; ["1"; "2"; "3"]] 1 "S1" = ([], inr df)
      ∧ columns df = ["A"; "A_1"; "A_1"; "_source_sheet"]
      ∧ ¬ NoDup (columns df).
Proof.
  split; [apply unique_headers_nonempty|].
  eexists. split; [by vm_compute|]. split; [done|]. simpl.
  intros Hnd. apply NoDup_cons in Hnd as [_ Hnd].
  apply NoDup_cons in Hnd as [Hnin _]. apply Hnin. left.
Qed.

(** ** The grid fetcher never raises *)

Lemma try_except_returns {A} (c : M A) h :
  (∀ e, returns (h e)) → returns (try_except c h).
Proof.
  intros Hh. destruct c as [log [e|a]].
  - rewrite try_except_inl. apply Hh.
  - by exists a.
Qed.

Lemma fetch_api_returns service sheet_id sheet_name gid header_row :
  returns (fetch_api service sheet_id sheet_name gid header_row).
Proof.
  apply try_except_returns. intros e.
  destruct e; by exists pd.empty_frame.
Qed.

Lemma fetch_public_returns rg rc sheet_id sheet_name gid header_row :
  returns (fetch_public rg rc sheet_id sheet_name gid header_row).
Proof.
  apply try_except_returns. intros e.
  destruct e; try by exists pd.empty_frame.
  simpl. case_match; by exists pd.empty_frame.
Qed.

Lemma fetch_sheet_data_returns rg rc service sheet_id sheet_name gid header_row :
  returns (fetch_sheet_data rg rc service sheet_id sheet_name gid header_row).
Proof.
  destruct service; [apply fetch_api_returns|apply fetch_public_returns].
Qed.

Lemma returns_not_raises {A} (c : M A) : returns c → ¬ raises c.
Proof. intros [a Ha] [e He]. congruence. Qed.

(** ** Authenticated channel and the worksheet index *)

(** C10: on the authenticated channel the gid reaches the result only
    through the provenance string, which is the worksheet name whenever
    that name is non-empty; two fetches that differ only in the gid then
    give the same table (and the same messages). *)
Theorem api_fetch_ignores_gid rg rc (service : SheetsService)
    (sheet_id name gid1 gid2 : string) (header_row : Z) :
  name ≠ "" →
  fetch_sheet_data rg rc (Some service) sheet_id (Some name) gid1 header_row =
  fetch_sheet_data rg rc (Some service) sheet_id (Some name) gid2 header_row
  ∧ ∀ sheet_name,
      provenance sheet_id sheet_name gid1 = provenance sheet_id sheet_name gid2 →
      fetch_sheet_data rg rc (Some service) sheet_id sheet_name gid1 header_row =
      fetch_sheet_data rg rc (Some service) sheet_id sheet_name gid2 header_row.
Proof.
  intros Hname.
  assert (∀ sheet_name,
    provenance sheet_id sheet_name gid1 = provenance sheet_id sheet_name gid2 →
    fetch_sheet_data rg rc (Some service) sheet_id sheet_name gid1 header_row =
    fetch_sheet_data rg rc (Some service) sheet_id sheet_name gid2 header_row)
    as Hprov.
  { intros sheet_name Hp. simpl. unfold fetch_api. by rewrite Hp. }
  split; [|exact Hprov].
  apply Hprov. unfold provenance, PyStr.or_else. by rewrite !decide_False.
Qed.

Lemma api_fetch_ignores_gid_witness :
  fetch_sheet_data get_csv simple_read_csv (Some two_row_service)
    "1A2b3C" (Some "Tab") "0" 1 =
  fetch_sheet_data get_csv simple_read_csv (Some two_row_service)
    "1A2b3C" (Some "Tab") "1763" 1.
Proof.
  refine (proj1 (api_fetch_ignores_gid get_csv simple_read_csv two_row_service
                   "1A2b3C" "Tab" "0" "1763" 1 _)).
  discriminate.
Defined.

(** ** Adding a sheet *)

Lemma empty_of_no_rows df : rows df = [] → pd.empty df = true.
Proof.
  intros Hr. unfold pd.empty, pd.len. rewrite Hr. simpl. apply orb_true_r.
Qed.

(** C9: when the fetch behind [add_sheet] yields a table with zero data
    rows, the add is rejected with a warning and the combiner, hence its
    ordered sheet collection, is exactly what it was. *)
Theorem add_sheet_rejects_empty rg rc (self : Combiner) (sheet_id : string)
    (sheet_info : SheetInfo) (header_row : Z) (custom_name : option string)
    (log : list msg) (df : DataFrame) :
  fetch_sheet_data rg rc (sheets_service self) sheet_id
    (info_name sheet_info) (info_gid sheet_info) header_row = (log, inr df) →
  rows df = [] →
  ∃ log' self',
    add_sheet rg rc self sheet_id sheet_info header_row custom_name =
      (log', inr (false, self'))
    ∧ self' = self
    ∧ sheets_data self' = sheets_data self
    ∧ log' = log ++ [st_warning ("⚠️ Sheet '" +:+ PyStr.fmt (info_name sheet_info)
                                 +:+ "' is empty or inaccessible.")].
Proof.
  intros Hfetch Hrows. eexists _, self. split; [|done].
  unfold add_sheet. rewrite Hfetch, bind_inr.
  rewrite (empty_of_no_rows _ Hrows). simpl. done.
Qed.

Lemma add_sheet_rejects_empty_witness :
  ∃ log' self',
    add_sheet get_csv simple_read_csv
      (mkCombiner [] pd.empty_frame (Some header_only_service))
      "1A2b3C" (mkInfo "0" (Some "Tab")) 1 None = (log', inr (false, self'))
    ∧ self' = mkCombiner [] pd.empty_frame (Some header_only_service)
    ∧ sheets_data self' = []
    ∧ log' = [] ++ [st_warning "⚠️ Sheet 'Tab' is empty or inaccessible."].
Proof.
  refine (add_sheet_rejects_empty get_csv simple_read_csv
            (mkCombiner [] pd.empty_frame (Some header_only_service))
            "1A2b3C" (mkInfo "0" (Some "Tab")) 1 None []
            (mkFrame ["a"; "b"; "_source_sheet"] []) _ _).
  - by vm_compute.
  - reflexivity.
Defined.

(** ** Public channel: the HTML shell *)

(** C5 (as the code has it): on the public channel, when the body, stripped,
    starts with [<!DOCTYPE html>], the [ValueError] raised by the prefix
    check is caught inside the fetcher: it writes one error message that
    carries the "may not be publicly accessible" text and returns the empty
    frame; no exception reaches the caller. *)
Theorem html_shell_downgraded rg rc (sheet_id : string)
    (sheet_name : option string) (gid : string) (header_row : Z)
    (text : string) :
  rg (csv_url sheet_id gid) = inr text →
  PyStr.startswith (PyStr.strip text) "<!DOCTYPE html>" = true →
  fetch_sheet_data rg rc None sheet_id sheet_name gid header_row =
    ([st_error ("❌ Error processing sheet '" +:+ shown_name sheet_name +:+ "': "
                +:+ "Sheet may not be publicly accessible. Received HTML instead of CSV.")],
     inr pd.empty_frame).
Proof.
  intros Hget Hhtml. simpl. unfold fetch_public, lift.
  rewrite Hget, bind_inr, Hhtml. simpl. done.
Qed.

Lemma html_shell_downgraded_witness :
  fetch_sheet_data get_html simple_read_csv None "1A2b3C" (Some "Tab") "0" 1 =
    ([st_error ("❌ Error processing sheet '" +:+ shown_name (Some "Tab") +:+ "': "
                +:+ "Sheet may not be publicly accessible. Received HTML instead of CSV.")],
     inr pd.empty_frame).
Proof.
  refine (html_shell_downgraded get_html simple_read_csv "1A2b3C" (Some "Tab")
            "0" 1 html_body _ _); reflexivity.
Defined.

(** C5 as stated fails: the body is the HTML shell, and the fetch returns
    a (empty) table instead of raising. *)
Lemma html_shell_not_raised :
  PyStr.startswith (PyStr.strip html_body) "<!DOCTYPE html>" = true
  ∧ (fetch_sheet_data get_html simple_read_csv None "1A2b3C" (Some "Tab") "0" 1).2
    = inr pd.empty_frame
  ∧ ¬ raises (fetch_sheet_data get_html simple_read_csv None "1A2b3C"
                (Some "Tab") "0" 1).
Proof.
  split; [by vm_compute|]. split; [by vm_compute|].
  apply returns_not_raises, fetch_sheet_data_returns.
Qed.

(** ** A header row beyond the data *)

Lemma data_rows_0 (padded : list (list string)) : data_rows padded 0 = drop 1 padded.
Proof.
  unfold data_rows, py_slice_from. simpl. case_match eqn:Hlt; [done|].
  apply Z.ltb_ge in Hlt. symmetry. apply drop_ge. lia.
Qed.

Lemma clamp_idx_beyond n header_row :
  (Z.of_nat n < header_row)%Z → clamp_idx n header_row = 0%Z.
Proof. intros. unfold clamp_idx. rewrite (proj2 (Z.leb_le _ _)); [done|lia]. Qed.

(** C3 (evaluation of the code): the authenticated channel clamps a header
    row beyond the data to row 1 and writes the notice; the public channel
    has no such step: [header_row - 1] goes to [read_csv] as it is, the
    [ParserError] it raises is caught, and the fetch returns the empty frame
    with an "Error processing sheet" message. *)
Theorem header_row_beyond_range :
  (∀ rg rc (service : SheetsService) sheet_id sheet_name gid header_row values,
     service sheet_id (range_name sheet_name) = inr values →
     values ≠ [] →
     (Z.of_nat (length values) < header_row)%Z →
     ∃ headers,
       padded_values values !! 0 = Some headers
       ∧ fetch_sheet_data rg rc (Some service) sheet_id sheet_name gid header_row =
         ([beyond_range_notice header_row],
          inr (pd.setitem
                 (mkFrame (unique_headers headers)
                    (map (map Text) (drop 1 (padded_values values))))
                 source_column (Text (provenance sheet_id sheet_name gid)))))
  ∧ (∀ rg rc sheet_id sheet_name gid header_row text m,
       rg (csv_url sheet_id gid) = inr text →
       PyStr.startswith (PyStr.strip text) "<!DOCTYPE html>" = false →
       rc text (header_row - 1)%Z = inl (ParserError m) →
       fetch_sheet_data rg rc None sheet_id sheet_name gid header_row =
         ([st_error ("❌ Error processing sheet '" +:+ shown_name sheet_name
                     +:+ "': " +:+ m)],
          inr pd.empty_frame))
  ∧ fetch_sheet_data get_csv simple_read_csv None "1A2b3C" (Some "Tab") "0" 5 =
      ([st_error "❌ Error processing sheet 'Tab': Passed header=4 but only 2 lines in file"],
       inr pd.empty_frame).
Proof.
  split; [|split; [|by vm_compute]].
  - intros rg rc service sheet_id sheet_name gid header_row values Hsvc Hne Hhr.
    destruct (normalize_eq values header_row
                (provenance sheet_id sheet_name gid) Hne) as (headers & Hh & Heq);
      [lia|].
    rewrite clamp_idx_beyond in Hh by done.
    rewrite clamp_idx_beyond in Heq by done.
    rewrite (proj2 (Z.leb_le _ _)) in Heq by lia.
    rewrite data_rows_0 in Heq.
    exists headers. split; [done|]. simpl. unfold fetch_api, lift.
    rewrite Hsvc, bind_inr. rewrite decide_False by done.
    rewrite Heq. simpl. done.
  - intros rg rc sheet_id sheet_name gid header_row text m Hget Hhtml Hrc.
    simpl. unfold fetch_public, lift.
    rewrite Hget, bind_inr, Hhtml. simpl. rewrite Hrc. simpl. done.
Qed.

Lemma header_row_beyond_range_witness :
  ∃ headers,
    padded_values [["a"; "b"]; ["1"; "2"]] !! 0 = Some headers
    ∧ fetch_sheet_data get_csv simple_read_csv (Some two_row_service)
        "1A2b3C" (Some "Tab") "0" 5 =
      ([beyond_range_notice 5],
       inr (pd.setitem
              (mkFrame (unique_headers headers)
                 (map (map Text) (drop 1 (padded_values [["a"; "b"]; ["1"; "2"]]))))
              source_column (Text (provenance "1A2b3C" (Some "Tab") "0")))).
Proof.
  refine (proj1 header_row_beyond_range get_csv simple_read_csv two_row_service
            "1A2b3C" (Some "Tab") "0" 5%Z [["a"; "b"]; ["1"; "2"]] _ _ _).
  - reflexivity.
  - discriminate.
  - simpl. lia.
Defined.

(** ** Summary *)

Lemma add_sheet_outcome rg rc self sheet_id sheet_info header_row custom_name :
  ∃ log b self',
    add_sheet rg rc self sheet_id sheet_info header_row custom_name =
      (log, inr (b, self'))
    ∧ combined_data self' = combined_data self
    ∧ (self' = self
       ∨ ∃ sheet, sheets_data self' = sheets_data self ++ [sheet]
                  ∧ pd.empty (s_data sheet) = false).
Proof.
  unfold add_sheet.
  destruct (fetch_sheet_data_returns rg rc (sheets_service self) sheet_id
              (info_name sheet_info) (info_gid sheet_info) header_row)
    as [df Hdf].
  destruct (fetch_sheet_data _ _ _ _ _ _ _) as [log0 r]. simpl in Hdf. subst r.
  rewrite bind_inr.
  destruct (pd.empty df) eqn:Hempty; simpl.
  - eexists _, false, self. eauto.
  - eexists _, true, _. split; [done|]. split; [done|]. right.
    eexists. split; [done|]. done.
Qed.

(** C6 (as the code has it): the column list, total row count and total
    column count of [get_summary] are read from the table stored by the
    latest [combine_sheets] (the empty frame before any), so they describe
    the combination of the held sheets right after a [combine_sheets] and
    are left as they were by an add or a remove; the per-sheet entries
    (display name, row count, header row) are recomputed from the sheets
    held at the time of the call. *)
Theorem summary_reads_cached_table (self : Combiner) :
  (∀ df self',
     combine_sheets self = inr (df, self') →
     sum_columns (get_summary self') = columns df
     ∧ total_rows (get_summary self') = pd.len df
     ∧ total_columns (get_summary self') = length (columns df)
     ∧ sheets_data self' = sheets_data self)
  ∧ (∀ rg rc sheet_id sheet_info header_row custom_name log b self',
       add_sheet rg rc self sheet_id sheet_info header_row custom_name =
         (log, inr (b, self')) →
       sum_columns (get_summary self') = sum_columns (get_summary self)
       ∧ total_rows (get_summary self') = total_rows (get_summary self)
       ∧ total_columns (get_summary self') = total_columns (get_summary self))
  ∧ (∀ i self',
       remove_sheet self i = inr self' →
       sum_columns (get_summary self') = sum_columns (get_summary self)
       ∧ total_rows (get_summary self') = total_rows (get_summary self)
       ∧ total_columns (get_summary self') = total_columns (get_summary self)
       ∧ sum_sheets (get_summary self') = delete i (sum_sheets (get_summary self)))
  ∧ sum_sheets (get_summary self) = sheet_stat <$> sheets_data self.
Proof.
  split; [|split; [|split]].
  - intros df self'. unfold combine_sheets.
    destruct (sheets_data self) eqn:Hs; [done|].
    destruct (pd.concat _); [done|]. by intros [= <- <-].
  - intros rg rc sheet_id sheet_info header_row custom_name log b self' Hadd.
    destruct (add_sheet_outcome rg rc self sheet_id sheet_info header_row
                custom_name) as (log0 & b0 & self0 & Heq & Hcd & _).
    rewrite Heq in Hadd. injection Hadd as _ _ <-.
    unfold get_summary. simpl. by rewrite Hcd.
  - intros i self'. unfold remove_sheet. case_decide; [|done].
    intros [= <-]. unfold get_summary. simpl.
    split; [done|]. split; [done|]. split; [done|].
    by rewrite list_fmap_delete.
  - done.
Qed.

Lemma summary_reads_cached_table_witness :
  sum_columns (get_summary (mkCombiner [sheet_ab; sheet_bc] frame_abc None))
  = ["A"; "B"; "_source_sheet"; "C"].
Proof.
  refine (proj1 (proj1 (summary_reads_cached_table
                          (mkCombiner [sheet_ab; sheet_bc] pd.empty_frame None))
                   frame_abc
                   (mkCombiner [sheet_ab; sheet_bc] frame_abc None) _)).
  reflexivity.
Defined.

(** C6 as stated fails: after an add on a fresh combiner and nothing else,
    the summary still reports no columns and no rows, while the combination
    of the held sheets has three columns and one row; after a combine and a
    remove it still reports the removed sheet's row. *)
Lemma summary_stale_after_add_or_remove :
  ∃ self df self1 self2,
    add_sheet get_csv simple_read_csv new_combiner "1A2b3C"
      (mkInfo "0" (Some "Tab")) 1 None = ([], inr (true, self))
    ∧ combine_sheets self = inr (df, self1)
    ∧ pd.len df = 1 ∧ length (columns df) = 3
    ∧ total_rows (get_summary self) = 0
    ∧ total_columns (get_summary self) = 0
    ∧ sum_columns (get_summary self) ≠ columns df
    ∧ remove_sheet self1 0 = inr self2
    ∧ sheets_data self2 = []
    ∧ total_rows (get_summary self2) = 1.
Proof.
  eexists _, _, _, _. split; [by vm_compute|]. split; [by vm_compute|].
  split; [done|]. split; [done|]. split; [done|]. split; [done|].
  split; [discriminate|]. split; [by vm_compute|]. done.
Qed.

(** ** Identifier resolver *)

Lemma after_literal_spec p s rest :
  after_literal p s = Some rest ↔ s = p +:+ rest.
Proof.
  revert s. induction p as [|a p IH]; intros s; simpl; str_simpl.
  - split; [by intros [= ->]|by intros ->].
  - destruct s as [|b s].
    + split; [done|discriminate].
    + case_decide as Hab.
      * subst b. rewrite IH. split; [by intros ->|by intros [= ->]].
      * split; [done|]. intros [= ? _]. congruence.
Qed.

Lemma id_run_split s : s = id_run s +:+ after_run s.
Proof.
  induction s as [|a s IH]; [done|]. simpl.
  destruct (is_id_char a); str_simpl; [by f_equal|done].
Qed.

Lemma id_run_all s : all_id (id_run s) = true.
Proof.
  induction s as [|a s IH]; [done|]. simpl.
  destruct (is_id_char a) eqn:Ha; simpl; [by rewrite Ha|done].
Qed.

Lemma after_run_stops s : stops (after_run s).
Proof.
  induction s as [|a s IH]; [done|]. simpl.
  destruct (is_id_char a) eqn:Ha; simpl; done.
Qed.

Lemma id_run_maximal g rest :
  all_id g = true → stops rest → id_run (g +:+ rest) = g.
Proof.
  intros Hg Hstop. induction g as [|a g IH]; str_simpl; simpl in *.
  - destruct rest as [|b rest]; [done|]. simpl in *. by rewrite Hstop.
  - apply andb_prop in Hg as [Ha Hg]. rewrite Ha. f_equal. by apply IH.
Qed.

Lemma match_at_spec s g : match_at s = Some g ↔ matches_here s g.
Proof.
  unfold match_at, matches_here. split.
  - destruct (after_literal url_literal s) as [rest|] eqn:Hlit; [|done].
    apply after_literal_spec in Hlit. simpl. case_decide as Hg; [done|].
    intros [= <-]. exists (after_run rest).
    split; [by rewrite <- id_run_split|]. split; [done|].
    split; [apply id_run_all|apply after_run_stops].
  - intros (rest & -> & Hne & Hall & Hstop).
    rewrite (proj2 (after_literal_spec url_literal _ (g +:+ rest)) eq_refl).
    simpl. rewrite (id_run_maximal _ _ Hall Hstop). by rewrite decide_False.
Qed.

Lemma matches_here_functional s g g' :
  matches_here s g → matches_here s g' → g = g'.
Proof.
  intros H1%match_at_spec H2%match_at_spec. congruence.
Qed.

Lemma re_search_unfold s :
  re_search s = match match_at s with
                | Some g => Some g
                | None => match s with
                          | "" => None
                          | String _ r => re_search r
                          end
                end.
Proof. by destruct s. Qed.

Lemma not_matches_empty g : ¬ matches_here "" g.
Proof. intros (rest & Heq & _). discriminate. Qed.

Lemma re_search_Some url g : re_search url = Some g ↔ leftmost_match url g.
Proof.
  revert g. induction url as [|a url IH]; intros g; rewrite re_search_unfold.
  - replace (match_at "") with (@None string) by done. split; [done|].
    intros (pre & s & Heq & Hm & _).
    destruct pre; [|done]. str_simpl. subst s. by apply not_matches_empty in Hm.
  - destruct (match_at (String a url)) as [g0|] eqn:Hm0.
    + apply match_at_spec in Hm0. split.
      * intros [= <-]. exists "", (String a url).
        split; [done|]. split; [done|]. intros; simpl; lia.
      * intros (pre & s & Heq & Hm & Hmin).
        specialize (Hmin "" (String a url) g0 eq_refl Hm0).
        destruct pre; [|simpl in Hmin; lia]. str_simpl. subst s.
        f_equal. by eapply matches_here_functional.
    + assert (∀ g', ¬ matches_here (String a url) g') as Hno.
      { intros g' Hg'%match_at_spec. congruence. }
      rewrite IH. split.
      * intros (pre & s & -> & Hm & Hmin). exists (String a pre), s.
        split; [done|]. split; [done|]. intros pre' s' g' Heq Hm'.
        destruct pre' as [|b pre'].
        { str_simpl. subst s'. by apply Hno in Hm'. }
        str_simpl. injection Heq as _ Heq.
        specialize (Hmin pre' s' g' Heq Hm'). simpl. lia.
      * intros (pre & s & Heq & Hm & Hmin). destruct pre as [|b pre].
        { str_simpl. subst s. by apply Hno in Hm. }
        str_simpl. injection Heq as -> ->. exists pre, s.
        split; [done|]. split; [done|]. intros pre' s' g' Heq' Hm'.
        assert (String b (pre +:+ s) = String b pre' +:+ s') as Heq''.
        { rewrite app_String. by f_equal. }
        specialize (Hmin (String b pre') s' g' Heq'' Hm'). simpl in Hmin. lia.
Qed.

Lemma re_search_None url :
  re_search url = None ↔ ∀ pre s g, url = pre +:+ s → ¬ matches_here s g.
Proof.
  induction url as [|a url IH]; rewrite re_search_unfold.
  - replace (match_at "") with (@None string) by done. split; [|done].
    intros _ pre s g Heq. destruct pre; [|done]. str_simpl. subst s.
    apply not_matches_empty.
  - destruct (match_at (String a url)) as [g0|] eqn:Hm0.
    + apply match_at_spec in Hm0. split; [done|]. intros Hno.
      by apply (Hno "" (String a url) g0) in Hm0.
    + rewrite IH. split.
      * intros Hno pre s g Heq Hm. destruct pre as [|b pre].
        { str_simpl. subst s. apply match_at_spec in Hm. congruence. }
        str_simpl. injection Heq as _ Heq. by apply (Hno pre s g) in Hm.
      * intros Hno pre s g -> Hm. by apply (Hno (String a pre) s g) in Hm.
Qed.

(** C8 (as the code has it): [extract_sheet_id] searches for the fixed
    pattern [/spreadsheets/d/<id>], with no closing slash required, where
    <id> is the longest run of one or more characters of [A-Za-z0-9_-]
    after the leftmost such prefix; it returns <id> on a match and raises
    [ValueError] ("Invalid Google Sheets URL format") when no position
    matches; it is a pure function of the URL.  The URL
    ".../spreadsheets/d/1A2b3C/edit#gid=0" gives "1A2b3C" and
    "https://example.com/nope" fails. *)
Theorem extract_sheet_id_pattern (url : string) :
  (∀ g, extract_sheet_id url = inr g ↔ leftmost_match url g)
  ∧ (extract_sheet_id url =
       inl (ValueError ("Invalid Google Sheets URL format: " +:+ url))
     ↔ ∀ pre s g, url = pre +:+ s → ¬ matches_here s g)
  ∧ ((∃ g, extract_sheet_id url = inr g)
     ∨ extract_sheet_id url =
         inl (ValueError ("Invalid Google Sheets URL format: " +:+ url)))
  ∧ extract_sheet_id "https://docs.google.com/spreadsheets/d/1A2b3C/edit#gid=0"
    = inr "1A2b3C"
  ∧ extract_sheet_id "https://example.com/nope"
    = inl (ValueError "Invalid Google Sheets URL format: https://example.com/nope").
Proof.
  unfold extract_sheet_id. split; [|split; [|split; [|split; by vm_compute]]].
  - intros g. rewrite <- re_search_Some.
    destruct (re_search url); split; congruence.
  - rewrite <- re_search_None. destruct (re_search url); split; congruence.
  - destruct (re_search url); eauto.
Qed.

(** C8 as stated fails: a URL that ends right after the identifier has no
    segment [/spreadsheets/d/<id>/], yet the identifier is returned. *)
Lemma closing_slash_not_required :
  spec_extract_id "https://docs.google.com/spreadsheets/d/1A2b3C"
  = inl (ValueError
           "Invalid Google Sheets URL format: https://docs.google.com/spreadsheets/d/1A2b3C")
  ∧ extract_sheet_id "https://docs.google.com/spreadsheets/d/1A2b3C" = inr "1A2b3C"
  ∧ extract_sheet_id "https://docs.google.com/spreadsheets/d/1A2b3C"
    ≠ spec_extract_id "https://docs.google.com/spreadsheets/d/1A2b3C".
Proof.
  split; [by vm_compute|]. split; [by vm_compute|]. by vm_compute.
Qed.

(** ** Combination *)






Lemma filter_all {A} (P : A → Prop) `{∀ x, Decision (P x)} (l : list A) :
  (∀ x, x ∈ l → P x) → filter P l = l.
Proof.
  induction l as [|x l IH]; intros HP; [done|]. rewrite filter_cons.
  rewrite decide_True by (apply HP; by left).
  f_equal. apply IH. intros y Hy. apply HP. by right.
Qed.





(** Re-indexing *)













(** * Further properties of the code *)

(** ** Grid fetcher: failures and channels *)

(** X1: whatever the service, the HTTP endpoint and the CSV reader do
    (values, or any exception), [fetch_sheet_data] returns a frame: no
    exception leaves it. *)
Theorem fetch_sheet_data_never_raises rg rc (service : option SheetsService)
    (sheet_id : string) (sheet_name : option string) (gid : string)
    (header_row : Z) :
  ∃ log df,
    fetch_sheet_data rg rc service sheet_id sheet_name gid header_row
    = (log, inr df).
Proof.
  destruct (fetch_sheet_data_returns rg rc service sheet_id sheet_name gid
              header_row) as [df Hdf].
  destruct (fetch_sheet_data _ _ _ _ _ _ _) as [log r]. simpl in Hdf.
  subst r. by exists log, df.
Qed.

(** X2: when the source fails, the fetch yields the empty frame
    ([pd.DataFrame()]): on the authenticated channel when the service
    raises, on the public channel when the request raises or when the CSV
    reader raises on a body that is not the HTML shell. *)
Theorem fetch_failure_gives_empty_frame rg rc (service : SheetsService)
    (sheet_id : string) (sheet_name : option string) (gid : string)
    (header_row : Z) :
  (∀ e, service sheet_id (range_name sheet_name) = inl e →
        (fetch_sheet_data rg rc (Some service) sheet_id sheet_name gid
           header_row).2 = inr pd.empty_frame)
  ∧ (∀ e, rg (csv_url sheet_id gid) = inl e →
          (fetch_sheet_data rg rc None sheet_id sheet_name gid header_row).2
          = inr pd.empty_frame)
  ∧ (∀ text e, rg (csv_url sheet_id gid) = inr text →
               rc text (header_row - 1)%Z = inl e →
               (fetch_sheet_data rg rc None sheet_id sheet_name gid
                  header_row).2 = inr pd.empty_frame).
Proof.
  split; [|split].
  - intros e He. simpl. unfold fetch_api, lift. rewrite He.
    rewrite bind_inl, try_except_inl. by destruct e.
  - intros e He. simpl. unfold fetch_public, lift. rewrite He.
    rewrite bind_inl, try_except_inl. destruct e; try done.
    simpl. by destruct (PyStr.contains "401" m || PyStr.contains "Unauthorized" m).
  - intros text e Htext He. simpl. unfold fetch_public, lift.
    rewrite Htext, bind_inr.
    destruct (PyStr.startswith (PyStr.strip text) "<!DOCTYPE html>"); [done|].
    simpl. rewrite He. simpl. destruct e; try done.
    by destruct (PyStr.contains "401" m || PyStr.contains "Unauthorized" m).
Qed.

Lemma fetch_failure_gives_empty_frame_witness :
  (fetch_sheet_data get_csv simple_read_csv (Some denied_service)
     "1A2b3C" (Some "Tab") "0" 1).2 = inr pd.empty_frame.
Proof.
  refine (proj1 (fetch_failure_gives_empty_frame get_csv simple_read_csv
                   denied_service "1A2b3C" (Some "Tab") "0" 1)
            (HttpError 403) _).
  reflexivity.
Defined.

(** X3: on the public channel a request failure whose text mentions 401 or
    "Unauthorized" is reported as a private sheet, followed by the hint to
    connect; any other request failure is reported as "Failed to fetch sheet
    data" with its text. *)
Theorem public_request_failure_messages rg rc (sheet_id : string)
    (sheet_name : option string) (gid : string) (header_row : Z) (m : string) :
  rg (csv_url sheet_id gid) = inl (RequestException m) →
  (fetch_sheet_data rg rc None sheet_id sheet_name gid header_row).1 =
    if PyStr.contains "401" m || PyStr.contains "Unauthorized" m then
      [st_error ("❌ Sheet '" +:+ shown_name sheet_name
                 +:+ "' is private and requires authentication.");
       st_info "💡 Please use the 'Connect to Google Sheets' button to authenticate."]
    else [st_error ("❌ Failed to fetch sheet data: " +:+ m)].
Proof.
  intros He. simpl. unfold fetch_public, lift. rewrite He.
  rewrite bind_inl, try_except_inl. simpl.
  by destruct (PyStr.contains "401" m || PyStr.contains "Unauthorized" m).
Qed.

Lemma public_request_failure_messages_witness :
  (fetch_sheet_data get_unauthorized simple_read_csv None "1A2b3C"
     (Some "Tab") "0" 1).1 =
    [st_error "❌ Sheet 'Tab' is private and requires authentication.";
     st_info "💡 Please use the 'Connect to Google Sheets' button to authenticate."].
Proof.
  refine (public_request_failure_messages get_unauthorized simple_read_csv
            "1A2b3C" (Some "Tab") "0" 1
            "401 Client Error: Unauthorized for url" _).
  reflexivity.
Defined.

(** X4: the two channels are exclusive.  With a service the fetch does not
    depend on the HTTP endpoint or the CSV reader; without one it depends
    on the endpoint only through the export URL of this spreadsheet and
    gid. *)
Theorem fetch_channels_exclusive (sheet_id : string)
    (sheet_name : option string) (gid : string) (header_row : Z) :
  (∀ rg rc rg' rc' (service : SheetsService),
     fetch_sheet_data rg rc (Some service) sheet_id sheet_name gid header_row
     = fetch_sheet_data rg' rc' (Some service) sheet_id sheet_name gid header_row)
  ∧ (∀ rg rg' rc,
       rg (csv_url sheet_id gid) = rg' (csv_url sheet_id gid) →
       fetch_sheet_data rg rc None sheet_id sheet_name gid header_row
       = fetch_sheet_data rg' rc None sheet_id sheet_name gid header_row).
Proof.
  split; [done|]. intros rg rg' rc Heq. simpl. unfold fetch_public.
  by rewrite Heq.
Qed.

Lemma fetch_channels_exclusive_witness :
  fetch_sheet_data get_csv simple_read_csv None "1A2b3C" (Some "Tab") "0" 1
  = fetch_sheet_data
      (λ url, if decide (url = csv_url "1A2b3C" "0") then inr csv_body
              else inl (RequestException "404 Client Error"))
      simple_read_csv None "1A2b3C" (Some "Tab") "0" 1.
Proof.
  refine (proj2 (fetch_channels_exclusive "1A2b3C" (Some "Tab") "0" 1)
            get_csv _ simple_read_csv _).
  reflexivity.
Defined.

(** X5: on the public channel, when the body is not the HTML shell and the
    CSV reader returns a frame, the header row index goes to the reader as
    it is, the parsed rows are all kept, the labels are renamed by the same
    loop (a null label at position i becomes [Column_<i>], the k-th later
    occurrence of a label gets [_<k>]) and every row is stamped with the
    provenance, which is [Sheet_<id>_gid<gid>] when no name is given. *)
Theorem public_fetch_table rg rc (sheet_id : string)
    (sheet_name : option string) (gid : string) (header_row : Z)
    (text : string) (f : CsvFrame) :
  rg (csv_url sheet_id gid) = inr text →
  PyStr.startswith (PyStr.strip text) "<!DOCTYPE html>" = false →
  rc text (header_row - 1)%Z = inr f →
  Forall (λ row, length row = length (csv_columns f)) (csv_rows f) →
  ∃ df,
    fetch_sheet_data rg rc None sheet_id sheet_name gid header_row = ([], inr df)
    ∧ pd.len df = length (csv_rows f)
    ∧ pd.rectangular df
    ∧ (∀ r, r < pd.len df →
            pd.at_ df r source_column
            = Some (Text (provenance sheet_id sheet_name gid)))
    ∧ (source_column ∉ csv_unique_headers (csv_columns f) →
       columns df = csv_unique_headers (csv_columns f) ++ [source_column]
       ∧ rows df = map (λ row, row ++ [Text (provenance sheet_id sheet_name gid)])
                     (csv_rows f))
    ∧ csv_unique_headers (csv_columns f)
      = dedup (imap csv_header_name (csv_columns f))
    ∧ provenance sheet_id None gid = "Sheet_" +:+ sheet_id +:+ "_gid" +:+ gid.
Proof.
  intros Htext Hhtml Hrc Hrect.
  set (df0 := mkFrame (csv_unique_headers (csv_columns f)) (csv_rows f)).
  assert (pd.rectangular df0) as Hrect0.
  { unfold pd.rectangular, df0. simpl. unfold csv_unique_headers.
    by rewrite header_loop_length. }
  exists (pd.setitem df0 source_column (Text (provenance sheet_id sheet_name gid))).
  split.
  { simpl. unfold fetch_public, lift. rewrite Htext, bind_inr, Hhtml. simpl.
    rewrite Hrc. simpl. done. }
  split; [by rewrite setitem_len|].
  split; [by apply setitem_rectangular|].
  split. { intros r Hr. rewrite setitem_len in Hr. by apply setitem_at. }
  split.
  { intros Hnin. unfold pd.setitem. by rewrite decide_False. }
  split; [apply header_loop_dedup|done].
Qed.

Lemma public_fetch_table_witness :
  ∃ df,
    fetch_sheet_data get_csv read_null_label None "1A2b3C" None "7" 3
    = ([], inr df)
    ∧ columns df = ["a"; "Column_2"; "a_1"; "_source_sheet"]
    ∧ rows df = [[Text "1"; Text "2"; Text "3"; Text "Sheet_1A2b3C_gid7"]].
Proof.
  destruct (public_fetch_table get_csv read_null_label "1A2b3C" None "7" 3
              csv_body csv_frame_null_label eq_refl eq_refl eq_refl)
    as (df & Hf & _ & _ & _ & Hcols & _).
  { repeat constructor. }
  exists df. split; [exact Hf|].
  apply Hcols. vm_compute. intros Hin.
  repeat (apply elem_of_cons in Hin as [Hin|Hin]; [discriminate|]).
  by apply elem_of_nil in Hin.
Defined.

(** ** Table normaliser: rows, cells and columns *)

Lemma data_rows_drop (padded : list (list string)) idx :
  (0 ≤ idx)%Z → data_rows padded idx = drop (Z.to_nat idx + 1) padded.
Proof.
  intros Hidx. unfold data_rows, py_slice_from.
  rewrite (proj2 (Z.leb_le 0 (idx + 1))) by lia.
  replace (Z.to_nat (idx + 1)) with (Z.to_nat idx + 1) by lia.
  case_match eqn:Hlt; [done|].
  apply Z.ltb_ge in Hlt. symmetry. apply drop_ge. lia.
Qed.

(** X6: for a non-empty grid and a header row of at least 1, the table has
    one row per grid row after the header: [len - header_row] rows when the
    header row exists, [len - 1] rows when it was clamped to row 1. *)
Theorem normalize_row_count (values : list (list string)) (header_row : Z)
    (prov : string) :
  values ≠ [] → (1 ≤ header_row)%Z →
  ∃ log df,
    normalize values header_row prov = (log, inr df)
    ∧ ((header_row ≤ Z.of_nat (length values))%Z →
       log = [] ∧ pd.len df = length values - Z.to_nat header_row)
    ∧ ((Z.of_nat (length values) < header_row)%Z →
       log = [beyond_range_notice header_row] ∧ pd.len df = length values - 1).
Proof.
  intros Hne Hpos.
  destruct (normalize_eq values header_row prov Hne Hpos) as (headers & _ & Heq).
  eexists _, _. split; [exact Heq|].
  assert (0 < length values) as Hlen by (destruct values; [done|simpl; lia]).
  pose proof (clamp_idx_range _ _ Hlen Hpos) as Hidx.
  rewrite setitem_len. unfold pd.len. simpl.
  rewrite length_map, data_rows_drop by lia.
  rewrite length_drop, padded_values_length.
  split; intros Hhr.
  - rewrite (proj2 (Z.leb_gt _ _)) by lia. split; [done|].
    unfold clamp_idx. rewrite (proj2 (Z.leb_gt _ _)) by lia. lia.
  - rewrite (proj2 (Z.leb_le _ _)) by lia. split; [done|].
    rewrite clamp_idx_beyond by done. simpl. lia.
Qed.

Lemma normalize_row_count_witness :
  ∃ log df,
    normalize ragged_grid 2 "S1" = (log, inr df) ∧ log = [] ∧ pd.len df = 1.
Proof.
  destruct (normalize_row_count ragged_grid 2 "S1") as (log & df & Hn & Hin & _);
    [done|lia|].
  exists log, df. split; [exact Hn|]. apply Hin. simpl. lia.
Defined.

Lemma padded_cell (src : list string) n j :
  j < length src + n →
  (src ++ replicate n "") !! j = Some (default "" (src !! j)).
Proof.
  intros Hj. destruct (decide (j < length src)) as [Hlt|Hge].
  - rewrite lookup_app_l by done.
    destruct (lookup_lt_is_Some_2 src j Hlt) as [x Hx]. by rewrite Hx.
  - rewrite lookup_app_r by lia.
    rewrite (lookup_ge_None_2 src j) by lia. simpl.
    apply lookup_replicate_2. lia.
Qed.

(** X7: padding and table building keep every cell where it was.  For a
    non-empty grid and a header row of at least 1 whose names do not
    include [_source_sheet], the r-th table row comes from the r-th grid
    row after the header: its j-th cell is that row's j-th cell, or the
    empty string where the grid row was shorter, and its last cell is the
    provenance. *)
Theorem normalize_cells (values : list (list string)) (header_row : Z)
    (prov : string) (headers : list string) :
  values ≠ [] → (1 ≤ header_row)%Z →
  padded_values values !! Z.to_nat (clamp_idx (length values) header_row)
    = Some headers →
  source_column ∉ unique_headers headers →
  ∃ log df,
    normalize values header_row prov = (log, inr df)
    ∧ columns df = unique_headers headers ++ [source_column]
    ∧ ∀ r src,
        values !! (Z.to_nat (clamp_idx (length values) header_row) + 1 + r)
          = Some src →
        ∃ row,
          rows df !! r = Some row
          ∧ length row = max_cols values + 1
          ∧ (∀ j, j < max_cols values →
                  row !! j = Some (Text (default "" (src !! j))))
          ∧ row !! max_cols values = Some (Text prov).
Proof.
  intros Hne Hpos Hh Hnin.
  destruct (normalize_eq values header_row prov Hne Hpos) as (headers' & Hh' & Heq).
  rewrite Hh in Hh'. injection Hh' as <-.
  assert (0 < length values) as Hlen by (destruct values; [done|simpl; lia]).
  pose proof (clamp_idx_range _ _ Hlen Hpos) as Hidx.
  eexists _, _. split; [exact Heq|].
  unfold pd.setitem. rewrite decide_False by done. simpl. split; [done|].
  intros r src Hsrc. rewrite data_rows_drop by lia.
  rewrite !list_lookup_fmap, lookup_drop. unfold padded_values.
  rewrite list_lookup_fmap, Hsrc. simpl. eexists. split; [done|].
  pose proof (max_cols_ge values src (list_elem_of_lookup_2 _ _ _ Hsrc)) as Hle.
  assert (length (src ++ replicate (max_cols values - length src) "")
          = max_cols values) as Hw.
  { rewrite length_app, length_replicate. lia. }
  split. { rewrite length_app, length_map, Hw. simpl. lia. }
  split.
  - intros j Hj. rewrite lookup_app_l by (rewrite length_map; lia).
    rewrite list_lookup_fmap, padded_cell by lia. done.
  - rewrite lookup_app_r by (rewrite length_map; lia).
    rewrite length_map, Hw, Nat.sub_diag. done.
Qed.

Lemma normalize_cells_witness :
  ∃ log df,
    normalize ragged_grid 1 "S1" = (log, inr df)
    ∧ columns df = ["Name"; "Age"; "Column_3"; "_source_sheet"]
    ∧ rows df !! 0 = Some [Text "Bob"; Text ""; Text ""; Text "S1"].
Proof.
  destruct (normalize_cells ragged_grid 1 "S1" ["Name"; "Age"; ""])
    as (log & df & Hn & Hcols & Hrows); [done|lia|reflexivity| |].
  { vm_compute. intros Hin.
    repeat (apply elem_of_cons in Hin as [Hin|Hin]; [discriminate|]).
    by apply elem_of_nil in Hin. }
  exists log, df. split; [exact Hn|]. split; [exact Hcols|].
  destruct (Hrows 0 ["Bob"] eq_refl) as (row & Hrow & Hlen & Hcells & Hlast).
  rewrite Hrow. f_equal.
  change (max_cols ragged_grid) with 3 in *.
  destruct row as [|c0 [|c1 [|c2 [|c3 [|c4 row]]]]]; simpl in Hlen; try lia.
  pose proof (Hcells 0 ltac:(lia)) as H0.
  pose proof (Hcells 1 ltac:(lia)) as H1.
  pose proof (Hcells 2 ltac:(lia)) as H2.
  simpl in H0, H1, H2, Hlast. congruence.
Defined.

(** X8: a header row of 0 is not rejected: through Python's negative
    indexing the last grid row gives the names, and every grid row, that
    one included, is kept as data. *)
Theorem normalize_header_row_zero (values : list (list string)) (prov : string) :
  values ≠ [] →
  ∃ headers,
    last (padded_values values) = Some headers
    ∧ normalize values 0 prov =
        ([], inr (pd.setitem
                    (mkFrame (unique_headers headers)
                       (map (map Text) (padded_values values)))
                    source_column (Text prov))).
Proof.
  intros Hne.
  assert (0 < length (padded_values values)) as Hlen.
  { rewrite padded_values_length. destruct values; [done|simpl; lia]. }
  destruct (lookup_lt_is_Some_2 (padded_values values)
              (length (padded_values values) - 1)) as [headers Hh]; [lia|].
  exists headers. split.
  { rewrite last_lookup. rewrite <- Hh. f_equal. lia. }
  unfold normalize. rewrite header_idx_eq.
  rewrite (proj2 (Z.leb_gt _ _)) by lia.
  unfold clamp_idx. rewrite (proj2 (Z.leb_gt _ _)) by lia.
  rewrite bind_inr.
  assert (headers_at (padded_values values) (0 - 1) = ([], inr headers)) as ->.
  { unfold headers_at, py_index.
    rewrite (proj2 (Z.ltb_lt _ _)) by lia.
    rewrite (proj2 (Z.leb_gt 0 (0 - 1))) by lia.
    rewrite (proj2 (Z.leb_le _ _)) by lia.
    replace (Z.to_nat (Z.of_nat (length (padded_values values)) + (0 - 1)))
      with (length (padded_values values) - 1) by lia.
    by rewrite Hh. }
  rewrite bind_inr. unfold lift.
  assert (data_rows (padded_values values) (0 - 1) = padded_values values) as ->.
  { unfold data_rows, py_slice_from. simpl.
    rewrite (proj2 (Z.ltb_lt _ _)) by lia. done. }
  rewrite new_DataFrame_ok.
  2:{ pose proof (padded_values_width values) as Hw.
      eapply Forall_impl; [exact Hw|]. simpl. intros row ->.
      rewrite unique_headers_length. symmetry.
      rewrite Forall_forall in Hw. apply Hw.
      by eapply list_elem_of_lookup_2. }
  rewrite bind_inr. simpl. done.
Qed.

Lemma normalize_header_row_zero_witness :
  ∃ headers,
    last (padded_values ragged_grid) = Some headers
    ∧ normalize ragged_grid 0 "S1" =
        ([], inr (pd.setitem
                    (mkFrame (unique_headers headers)
                       (map (map Text) (padded_values ragged_grid)))
                    source_column (Text "S1"))).
Proof. refine (normalize_header_row_zero ragged_grid "S1" _). discriminate. Defined.

(** X9: a header row at or below [-len] (for a grid of [len] rows) makes
    the header lookup raise [IndexError]; the authenticated fetch catches
    it, reports "list index out of range" and returns the empty frame. *)
Theorem fetch_api_header_row_far_negative (service : SheetsService)
    (sheet_id : string) (sheet_name : option string) (gid : string)
    (header_row : Z) (values : list (list string)) :
  service sheet_id (range_name sheet_name) = inr values →
  values ≠ [] →
  (header_row ≤ - Z.of_nat (length values))%Z →
  fetch_api service sheet_id sheet_name gid header_row =
    ([st_error ("❌ Error fetching sheet '" +:+ shown_name sheet_name
                +:+ "': list index out of range")],
     inr pd.empty_frame).
Proof.
  intros Hsvc Hne Hhr. unfold fetch_api, lift. rewrite Hsvc, bind_inr.
  rewrite decide_False by done. unfold normalize.
  rewrite header_idx_eq, padded_values_length.
  rewrite (proj2 (Z.leb_gt _ _)) by lia.
  unfold clamp_idx. rewrite (proj2 (Z.leb_gt _ _)) by lia.
  rewrite bind_inr.
  assert (headers_at (padded_values values) (header_row - 1)
          = ([], inl (IndexError "list index out of range"))) as ->.
  { unfold headers_at, py_index. rewrite padded_values_length.
    rewrite (proj2 (Z.ltb_lt _ _)) by lia.
    rewrite (proj2 (Z.leb_gt 0 _)) by lia.
    rewrite (proj2 (Z.leb_gt _ _)) by lia. done. }
  done.
Qed.

Lemma fetch_api_header_row_far_negative_witness :
  fetch_api ragged_service "1A2b3C" (Some "Tab") "0" (-3) =
    ([st_error ("❌ Error fetching sheet '" +:+ shown_name (Some "Tab")
                +:+ "': list index out of range")],
     inr pd.empty_frame).
Proof.
  refine (fetch_api_header_row_far_negative ragged_service "1A2b3C" (Some "Tab")
            "0" (-3) ragged_grid _ _ _); [reflexivity|discriminate|simpl; lia].
Defined.

(** X10: the provenance column is added after the named columns, so the
    table has [max_cols + 1] columns; but when a header name is itself
    [_source_sheet], that column is overwritten with the provenance and
    the table keeps [max_cols] columns. *)
Theorem normalize_column_count (values : list (list string)) (header_row : Z)
    (prov : string) :
  values ≠ [] → (1 ≤ header_row)%Z →
  ∃ log df headers,
    normalize values header_row prov = (log, inr df)
    ∧ padded_values values !! Z.to_nat (clamp_idx (length values) header_row)
      = Some headers
    ∧ (source_column ∉ unique_headers headers →
       columns df = unique_headers headers ++ [source_column]
       ∧ length (columns df) = max_cols values + 1)
    ∧ (source_column ∈ unique_headers headers →
       columns df = unique_headers headers
       ∧ length (columns df) = max_cols values).
Proof.
  intros Hne Hpos.
  destruct (normalize_eq values header_row prov Hne Hpos) as (headers & Hh & Heq).
  assert (length (unique_headers headers) = max_cols values) as Hhl.
  { rewrite unique_headers_length.
    pose proof (padded_values_width values) as Hw.
    rewrite Forall_forall in Hw. apply Hw. by eapply list_elem_of_lookup_2. }
  eexists _, _, headers. split; [exact Heq|]. split; [done|].
  unfold pd.setitem. split; intros Hin.
  - rewrite decide_False by done. simpl. split; [done|].
    rewrite length_app, Hhl. simpl. done.
  - rewrite decide_True by done. simpl. done.
Qed.

Lemma normalize_column_count_witness :
  ∃ log df,
    normalize [["id"; "_source_sheet"]; ["7"; "old"]] 1 "S1" = (log, inr df)
    ∧ columns df = ["id"; "_source_sheet"]
    ∧ rows df = [[Text "7"; Text "S1"]].
Proof.
  destruct (normalize_column_count [["id"; "_source_sheet"]; ["7"; "old"]] 1 "S1")
    as (log & df & headers & Hn & Hh & _ & Hin); [done|lia|].
  exists log, df. split; [exact Hn|].
  injection Hh as <-.
  destruct Hin as [Hcols _]; [vm_compute; right; left|].
  split; [exact Hcols|].
  assert (normalize [["id"; "_source_sheet"]; ["7"; "old"]] 1 "S1"
          = ([], inr (mkFrame ["id"; "_source_sheet"] [[Text "7"; Text "S1"]])))
    as Hv by (by vm_compute).
  rewrite Hv in Hn. by injection Hn as _ <-.
Defined.

(** ** Header names: when they are distinct *)

Lemma no_underscore_empty : no_underscore "".
Proof. intros [|a pre] post; str_simpl; discriminate. Qed.

Lemma no_underscore_cons a s :
  a ≠ "_"%char → no_underscore s → no_underscore (String a s).
Proof.
  intros Ha Hs [|b pre] post; str_simpl.
  - intros [= ? _]. done.
  - intros [= _ Heq]. by apply (Hs pre post).
Qed.

Lemma pretty_N_char_not_underscore x : pretty_N_char x ≠ "_"%char.
Proof. unfold pretty_N_char. by repeat case_match. Qed.

Lemma pretty_N_go_no_underscore x :
  ∀ s, no_underscore s → no_underscore (pretty_N_go x s).
Proof.
  induction (N.lt_wf_0 x) as [x _ IH]; intros s Hs.
  assert (x = 0 ∨ 0 < x)%N as [->|Hx] by lia.
  - by rewrite pretty_N_go_0.
  - rewrite pretty_N_go_step by done. apply IH.
    + by apply N.div_lt.
    + apply no_underscore_cons; [apply pretty_N_char_not_underscore|done].
Qed.

Lemma pretty_nat_no_underscore (n : nat) : no_underscore (pretty n).
Proof.
  unfold pretty, pretty_nat, pretty, pretty_N. case_decide.
  - apply no_underscore_cons; [done|apply no_underscore_empty].
  - apply pretty_N_go_no_underscore, no_underscore_empty.
Qed.

Lemma split_last_underscore a :
  ∀ b d e,
    a +:+ "_" +:+ d = b +:+ "_" +:+ e →
    no_underscore d → no_underscore e → a = b ∧ d = e.
Proof.
  induction a as [|c a IH]; intros [|c' b] d e Heq Hd He; str_simpl.
  - by injection Heq as ->.
  - injection Heq as <- Heq. by destruct (Hd b e).
  - injection Heq as -> Heq. by destruct (He a d).
  - injection Heq as -> Heq. destruct (IH b d e Heq Hd He) as [-> ->]. done.
Qed.

Lemma app_not_self h t : t ≠ "" → h ≠ h +:+ t.
Proof.
  intros Ht. induction h as [|c h IH]; str_simpl; [done|].
  intros [= Heq]. done.
Qed.

Lemma suffixed_inj_count h k k' : suffixed k h = suffixed k' h → k = k'.
Proof.
  destruct k as [|k], k' as [|k']; simpl; [done| | |].
  - intros Heq. by apply app_not_self in Heq.
  - intros Heq. symmetry in Heq. by apply app_not_self in Heq.
  - intros Heq. apply (inj _) in Heq. apply (inj _) in Heq.
    by apply (inj pretty) in Heq.
Qed.

Lemma occurrences_app h l1 l2 :
  occurrences h (l1 ++ l2) = occurrences h l1 + occurrences h l2.
Proof. unfold occurrences. by rewrite filter_app, length_app. Qed.

Lemma occurrences_grow h (l : list string) i j :
  i < j → l !! i = Some h →
  occurrences h (take i l) < occurrences h (take j l).
Proof.
  intros Hij Hi.
  assert (take j l = take i l ++ h :: take (j - S i) (drop (S i) l)) as ->.
  { rewrite <- (take_drop_middle l i h Hi) at 1.
    rewrite take_app_ge by (rewrite length_take; apply lookup_lt_Some in Hi; lia).
    rewrite length_take_le by (apply lookup_lt_Some in Hi; lia).
    replace (j - i) with (S (j - S i)) by lia. done. }
  rewrite occurrences_app.
  change (h :: ?t) with ([h] ++ t). rewrite occurrences_app.
  unfold occurrences at 3. rewrite filter_cons, decide_True by done. simpl. lia.
Qed.

Lemma dedup_lookup names i x :
  dedup names !! i = Some x →
  ∃ h, names !! i = Some h ∧ x = suffixed (occurrences h (take i names)) h.
Proof.
  unfold dedup. rewrite list_lookup_imap.
  destruct (names !! i) as [h|]; [|done]. simpl. intros [= <-]. by exists h.
Qed.

(** X11: equal names never end up equal.  Two positions of the header row
    that hold the same name (after blank cells were named) always receive
    different column names. *)
Theorem equal_names_get_distinct_columns (headers : list string) (i j : nat)
    (x y : string) :
  i ≠ j →
  fill_blanks headers !! i = fill_blanks headers !! j →
  unique_headers headers !! i = Some x →
  unique_headers headers !! j = Some y →
  x ≠ y.
Proof.
  rewrite unique_headers_two_pass. intros Hij Hsame Hx Hy.
  apply dedup_lookup in Hx as (a & Ha & ->).
  apply dedup_lookup in Hy as (b & Hb & ->).
  rewrite Ha, Hb in Hsame. injection Hsame as <-.
  intros Heq%suffixed_inj_count.
  destruct (decide (i < j)).
  - pose proof (occurrences_grow a _ i j ltac:(done) Ha). lia.
  - pose proof (occurrences_grow a _ j i ltac:(lia) Hb). lia.
Qed.

Lemma equal_names_get_distinct_columns_witness :
  unique_headers ["Name"; "Name"; ""; "Name"] !! 1 = Some "Name_1"
  ∧ unique_headers ["Name"; "Name"; ""; "Name"] !! 3 = Some "Name_2"
  ∧ "Name_1" ≠ "Name_2".
Proof.
  split; [reflexivity|]. split; [reflexivity|].
  refine (equal_names_get_distinct_columns ["Name"; "Name"; ""; "Name"] 1 3
            "Name_1" "Name_2" _ _ _ _); [lia|reflexivity..].
Defined.

Lemma unique_headers_distinct_when (headers : list string) :
  (∀ i j k a b,
     fill_blanks headers !! i = Some a → fill_blanks headers !! j = Some b →
     a ≠ b +:+ "_" +:+ pretty (S k)) →
  NoDup (unique_headers headers).
Proof.
  intros Hfree. rewrite unique_headers_two_pass. apply NoDup_alt.
  assert (∀ i j x,
    i < j → dedup (fill_blanks headers) !! i = Some x →
    dedup (fill_blanks headers) !! j = Some x → False) as Hlt.
  { intros i j x Hij Hi Hj.
    apply dedup_lookup in Hi as (a & Ha & Hxa).
    apply dedup_lookup in Hj as (b & Hb & Hxb).
    pose proof (occurrences_grow a _ i j Hij Ha) as Hgrow.
    destruct (occurrences a (take i (fill_blanks headers))) as [|ka] eqn:Hka,
             (occurrences b (take j (fill_blanks headers))) as [|kb] eqn:Hkb;
      simpl in Hxa, Hxb; subst x.
    - subst b. lia.
    - by apply (Hfree i j kb a b).
    - symmetry in Hxb. by apply (Hfree j i ka b a).
    - apply split_last_underscore in Hxb as [-> Hp];
        [|apply pretty_nat_no_underscore..].
      apply (inj pretty) in Hp. lia. }
  intros i j x Hi Hj.
  destruct (Nat.lt_trichotomy i j) as [Hij|[Hij|Hij]]; [|done|].
  - by destruct (Hlt i j x).
  - by destruct (Hlt j i x).
Qed.

(** X12: the column names come out pairwise distinct whenever no name of
    the header row (after blank cells were named) is another such name
    followed by [_<k>] for a positive number k; in particular whenever no
    header cell is blank or contains an underscore. *)
Theorem unique_headers_distinct (headers : list string) :
  ((∀ i j k a b,
      fill_blanks headers !! i = Some a → fill_blanks headers !! j = Some b →
      a ≠ b +:+ "_" +:+ pretty (S k)) →
   NoDup (unique_headers headers))
  ∧ (Forall (λ h, is_blank h = false ∧ no_underscore h) headers →
     NoDup (unique_headers headers)).
Proof.
  split; [apply unique_headers_distinct_when|].
  intros Hh. apply unique_headers_distinct_when.
  rewrite fill_blanks_id.
  2:{ eapply Forall_impl; [exact Hh|]. by intros ? []. }
  intros i j k a b Ha _ Heq. rewrite Forall_lookup in Hh.
  destruct (Hh i a Ha) as [_ Hno]. by apply (Hno b (pretty (S k))).
Qed.

Lemma unique_headers_distinct_witness :
  NoDup (unique_headers ["Name"; "Age"; "Name"; "Name"]).
Proof.
  refine (proj2 (unique_headers_distinct ["Name"; "Age"; "Name"; "Name"]) _).
  repeat constructor;
    intros pre post Heq;
    repeat (destruct pre as [|? pre]; str_simpl; try discriminate).
Defined.

(** ** Combiner: adding and removing *)

(** X13: [add_sheet] appends or rejects, nothing else.  When the fetched
    table is non-empty it returns [True] and the new sheet is appended
    last, with the fetched table, the header row and the display name (the
    custom name when one is given, the worksheet name otherwise); when it
    is empty it warns, returns [False] and the combiner is unchanged.  The
    cached combined table is not touched either way. *)
Theorem add_sheet_appends_or_rejects rg rc (self : Combiner)
    (sheet_id : string) (sheet_info : SheetInfo) (header_row : Z)
    (custom_name : option string) (log : list msg) (df : DataFrame) :
  fetch_sheet_data rg rc (sheets_service self) sheet_id
    (info_name sheet_info) (info_gid sheet_info) header_row = (log, inr df) →
  (pd.empty df = false →
   add_sheet rg rc self sheet_id sheet_info header_row custom_name =
     (log,
      inr (true,
           mkCombiner
             (sheets_data self ++
                [mkSheet sheet_id (info_gid sheet_info) (info_name sheet_info)
                   (display_name_of custom_name (info_name sheet_info))
                   df header_row])
             (combined_data self) (sheets_service self))))
  ∧ (pd.empty df = true →
     add_sheet rg rc self sheet_id sheet_info header_row custom_name =
       (log ++ [st_warning ("⚠️ Sheet '" +:+ PyStr.fmt (info_name sheet_info)
                            +:+ "' is empty or inaccessible.")],
        inr (false, self))).
Proof.
  intros Hfetch. unfold add_sheet. rewrite Hfetch, bind_inr.
  split; intros ->; simpl; [by rewrite app_nil_r|done].
Qed.

Lemma add_sheet_appends_or_rejects_witness :
  add_sheet get_csv simple_read_csv new_combiner "1A2b3C"
    (mkInfo "0" (Some "Tab")) 1 (Some "Orders") =
    ([],
     inr (true,
          mkCombiner
            [mkSheet "1A2b3C" "0" (Some "Tab") (Some "Orders")
               (mkFrame ["a"; "b"; "_source_sheet"]
                  [[Text "1"; Text "2"; Text "Tab"]]) 1]
            pd.empty_frame None)).
Proof.
  refine (proj1 (add_sheet_appends_or_rejects get_csv simple_read_csv new_combiner
                   "1A2b3C" (mkInfo "0" (Some "Tab")) 1 (Some "Orders") []
                   (mkFrame ["a"; "b"; "_source_sheet"]
                      [[Text "1"; Text "2"; Text "Tab"]]) _) _);
    reflexivity.
Defined.

(** X14: every sheet the combiner holds has a non-empty table: this holds
    for a new combiner and is kept by [add_sheet], by the page's removal
    and by [combine_sheets]; under it the "Combine" button is disabled
    exactly when no sheet is held. *)
Theorem held_sheets_stay_nonempty (self : Combiner) :
  held_nonempty new_combiner
  ∧ (held_nonempty self →
     (∀ rg rc sheet_id sheet_info header_row custom_name log b self',
        add_sheet rg rc self sheet_id sheet_info header_row custom_name
        = (log, inr (b, self')) → held_nonempty self')
     ∧ (∀ i self', remove_sheet self i = inr self' → held_nonempty self')
     ∧ (∀ df self', combine_sheets self = inr (df, self') → held_nonempty self')
     ∧ disable_combine self = bool_decide (sheets_data self = [])).
Proof.
  split; [constructor|]. intros Hinv. split; [|split; [|split]].
  - intros rg rc sheet_id sheet_info header_row custom_name log b self' Hadd.
    destruct (add_sheet_outcome rg rc self sheet_id sheet_info header_row
                custom_name) as (log0 & b0 & self0 & Heq & _ & Hcases).
    rewrite Heq in Hadd. injection Hadd as _ _ <-.
    destruct Hcases as [->|(sheet & Hs & Hne)]; [done|].
    unfold held_nonempty. rewrite Hs. apply Forall_app. split; [done|].
    by constructor.
  - intros i self'. unfold remove_sheet. case_decide; [|done].
    intros [= <-]. unfold held_nonempty. simpl. by apply Forall_delete.
  - intros df self'. unfold combine_sheets.
    destruct (sheets_data self) eqn:Hs; [done|].
    destruct (pd.concat _); [done|]. intros [= _ <-].
    unfold held_nonempty. simpl. by rewrite <- Hs.
  - unfold disable_combine. rewrite filter_all.
    + destruct (sheets_data self); done.
    + intros s Hs. unfold held_nonempty in Hinv.
      rewrite Forall_forall in Hinv. by apply Hinv.
Qed.

Lemma held_sheets_stay_nonempty_witness :
  disable_combine (mkCombiner [sheet_ab; sheet_bc] pd.empty_frame None)
  = bool_decide (sheets_data (mkCombiner [sheet_ab; sheet_bc] pd.empty_frame None)
                 = []).
Proof.
  refine (proj2 (proj2 (proj2 (proj2 (held_sheets_stay_nonempty
    (mkCombiner [sheet_ab; sheet_bc] pd.empty_frame None)) _)))).
  repeat constructor.
Defined.



(** ** Combiner: combining *)

Lemma reindex_rows_length new_cols df rs :
  pd.reindex new_cols df = inr rs → length rs = pd.len df.
Proof.
  unfold pd.reindex, pd.len.
  repeat case_decide; intros [= <-]; by rewrite ?length_map.
Qed.

Lemma reindex_raises new_cols df e :
  pd.reindex new_cols df = inl e → ¬ NoDup (columns df).
Proof. unfold pd.reindex. by repeat case_decide. Qed.

Lemma concat_rows_length new_cols objs rs :
  pd.concat_rows new_cols objs = inr rs →
  length rs = sum_list (pd.len <$> objs).
Proof.
  revert rs. induction objs as [|df objs IH]; intros rs; simpl.
  { by intros [= <-]. }
  destruct (pd.reindex new_cols df) as [e|rs1] eqn:Hr; [done|].
  destruct (pd.concat_rows new_cols objs) as [e|rs2]; [done|].
  intros [= <-]. rewrite length_app, (IH rs2 eq_refl).
  by rewrite (reindex_rows_length _ _ _ Hr).
Qed.

Lemma concat_rows_raises new_cols objs e :
  pd.concat_rows new_cols objs = inl e →
  ∃ df, df ∈ objs ∧ ¬ NoDup (columns df).
Proof.
  revert e. induction objs as [|df objs IH]; intros e; simpl; [done|].
  destruct (pd.reindex new_cols df) as [e'|rs1] eqn:Hr.
  - intros _. exists df. split; [left|]. by eapply reindex_raises.
  - destruct (pd.concat_rows new_cols objs) as [e'|rs2]; [|done].
    intros _. destruct (IH e' eq_refl) as (df' & Hin & Hnd).
    exists df'. split; [by right|done].
Qed.

Lemma concat_rows_exn new_cols objs e :
  pd.concat_rows new_cols objs = inl e →
  e = InvalidIndexError "Reindexing only valid with uniquely valued Index objects".
Proof.
  revert e. induction objs as [|df objs IH]; intros e; simpl; [done|].
  destruct (pd.reindex new_cols df) as [e'|rs1] eqn:Hr.
  - intros [= <-]. unfold pd.reindex in Hr.
    repeat case_decide; by simplify_eq.
  - destruct (pd.concat_rows new_cols objs) as [e'|rs2]; [|done].
    intros [= <-]. by apply IH.
Qed.

Lemma combine_sheets_inr self df self' :
  combine_sheets self = inr (df, self') →
  sheets_data self ≠ []
  ∧ pd.concat (s_data <$> sheets_data self) = inr df
  ∧ self' = mkCombiner (sheets_data self) df (sheets_service self).
Proof.
  unfold combine_sheets. destruct (sheets_data self) eqn:Hs; [done|].
  destruct (pd.concat _) as [e|df0]; [done|]. by intros [= <- <-].
Qed.

Lemma concat_inr objs df :
  pd.concat objs = inr df →
  columns df = pd.combined_index (columns <$> objs)
  ∧ pd.concat_rows (columns df) objs = inr (rows df).
Proof.
  unfold pd.concat. destruct objs as [|df0 objs]; [done|].
  destruct (pd.concat_rows _ _) as [e|rs] eqn:Hrows; [done|].
  by intros [= <-].
Qed.

(** X16: [combine_sheets] raises [ValueError] "No sheets added yet."
    exactly when no sheet is held; with sheets held, the only way it can
    fail is a held table whose own column names repeat. *)
Theorem combine_sheets_failures (self : Combiner) :
  (combine_sheets self = inl (ValueError "No sheets added yet.")
   ↔ sheets_data self = [])
  ∧ (∀ e, combine_sheets self = inl e → sheets_data self ≠ [] →
          ∃ s, s ∈ sheets_data self ∧ ¬ NoDup (columns (s_data s))).
Proof.
  assert (∀ e, combine_sheets self = inl e → sheets_data self ≠ [] →
               ∃ s, s ∈ sheets_data self ∧ ¬ NoDup (columns (s_data s)))
    as Hfail.
  { intros e. unfold combine_sheets, pd.concat.
    destruct (sheets_data self) as [|s0 ss] eqn:Hs; [done|].
    rewrite fmap_cons.
    destruct (pd.concat_rows _ _) as [e'|rs] eqn:Hrows; [|done].
    intros _ _. apply concat_rows_raises in Hrows as (df & Hin & Hnd).
    rewrite <- fmap_cons in Hin.
    apply list_elem_of_fmap in Hin as (s & -> & Hin). by exists s. }
  split; [|exact Hfail]. split.
  - intros Hc. destruct (sheets_data self) as [|s0 ss] eqn:Hs; [done|].
    exfalso. unfold combine_sheets, pd.concat in Hc. rewrite Hs in Hc.
    rewrite fmap_cons in Hc.
    destruct (pd.concat_rows _ _) as [e'|rs] eqn:Hrows; [|done].
    apply concat_rows_exn in Hrows. by subst e'.
  - intros Hs. unfold combine_sheets. by rewrite Hs.
Qed.

Lemma combine_sheets_failures_witness :
  ∃ s, s ∈ sheets_data
             (holding [mkFrame ["A"; "A_1"; "A_1"] [[Text "1"; Text "2"; Text "3"]];
                       plain_bc])
       ∧ ¬ NoDup (columns (s_data s)).
Proof.
  refine (proj2 (combine_sheets_failures
                   (holding [mkFrame ["A"; "A_1"; "A_1"]
                               [[Text "1"; Text "2"; Text "3"]]; plain_bc]))
            (InvalidIndexError
               "Reindexing only valid with uniquely valued Index objects") _ _).
  - by vm_compute.
  - discriminate.
Defined.

(** X17: [combine_sheets] recomputes from the held sheets alone: its
    result does not depend on the cached table, so combining again right
    after a combine gives the same table and the same state. *)
Theorem combine_sheets_recomputes (self : Combiner) (df : DataFrame)
    (self' : Combiner) :
  combine_sheets self = inr (df, self') →
  combine_sheets self' = inr (df, self')
  ∧ sheets_data self' = sheets_data self
  ∧ combined_data self' = df
  ∧ ∀ cached,
      combine_sheets (mkCombiner (sheets_data self) cached (sheets_service self))
      = inr (df, self').
Proof.
  intros Hc. apply combine_sheets_inr in Hc as (Hne & Hconcat & ->).
  unfold combine_sheets. simpl. rewrite Hconcat.
  destruct (sheets_data self); done.
Qed.

Lemma combine_sheets_recomputes_witness :
  combine_sheets (mkCombiner [sheet_ab; sheet_bc] frame_abc None)
  = inr (frame_abc, mkCombiner [sheet_ab; sheet_bc] frame_abc None).
Proof.
  refine (proj1 (combine_sheets_recomputes
                   (mkCombiner [sheet_ab; sheet_bc] pd.empty_frame None)
                   frame_abc (mkCombiner [sheet_ab; sheet_bc] frame_abc None) _)).
  reflexivity.
Defined.




Lemma unique_step_elem labels :
  ∀ acc x, x ∈ foldl pd.unique_step acc labels ↔ x ∈ acc ∨ x ∈ labels.
Proof.
  induction labels as [|y labels IH]; intros acc x; simpl.
  { rewrite elem_of_nil. tauto. }
  rewrite IH, elem_of_cons. unfold pd.unique_step. case_decide as Hy.
  - split; [tauto|]. intros [?|[->|?]]; tauto.
  - rewrite elem_of_app, list_elem_of_singleton. tauto.
Qed.

Lemma combined_index_elem (indexes : list (list string)) cols c :
  cols ∈ indexes → c ∈ cols → c ∈ pd.combined_index indexes.
Proof.
  intros Hcols Hc. unfold pd.combined_index.
  destruct indexes as [|i0 others]; [by apply elem_of_nil in Hcols|].
  destruct (forallb _ others) eqn:Hall.
  - apply elem_of_cons in Hcols as [->|Hin]; [done|].
    rewrite forallb_forall in Hall.
    specialize (Hall cols (proj1 (list_elem_of_In _ _) Hin)).
    apply bool_decide_eq_true in Hall. by subst.
  - unfold pd.fast_unique. apply unique_step_elem. right.
    apply list_elem_of_join. by exists cols.
Qed.

Lemma concat_rows_columns new_cols objs rs df :
  pd.concat_rows new_cols objs = inr rs → df ∈ objs →
  columns df = new_cols ∨ NoDup (columns df).
Proof.
  revert rs. induction objs as [|df0 objs IH]; intros rs; simpl.
  { intros _ Hin. by apply elem_of_nil in Hin. }
  destruct (pd.reindex new_cols df0) as [e|rs1] eqn:Hr; [done|].
  destruct (pd.concat_rows new_cols objs) as [e|rs2]; [done|].
  intros _ [->|Hin]%elem_of_cons; [|by eapply IH].
  unfold pd.reindex in Hr. repeat case_decide; simplify_eq; auto.
Qed.

(** X19: right after a successful [combine_sheets], the summary is
    consistent with the held sheets: the total row count is the sum of the
    per-sheet row counts, there is one per-sheet entry for each held sheet,
    and the total column count is at least the column count of every
    sheet. *)
Theorem summary_totals_after_combine (self : Combiner) (df : DataFrame)
    (self' : Combiner) :
  combine_sheets self = inr (df, self') →
  total_rows (get_summary self')
  = sum_list (stat_rows <$> sum_sheets (get_summary self'))
  ∧ length (sum_sheets (get_summary self')) = length (sheets_data self)
  ∧ ∀ s, s ∈ sheets_data self →
         length (columns (s_data s)) ≤ total_columns (get_summary self').
Proof.
  intros Hc. apply combine_sheets_inr in Hc as (Hne & Hconcat & ->).
  apply concat_inr in Hconcat as [Hcols Hrows].
  unfold get_summary. simpl. split; [|split].
  - unfold pd.len at 1. rewrite (concat_rows_length _ _ _ Hrows).
    by rewrite <- !list_fmap_compose.
  - by rewrite length_map.
  - intros s Hs.
    assert (s_data s ∈ s_data <$> sheets_data self) as Hin.
    { apply list_elem_of_fmap. by exists s. }
    destruct (concat_rows_columns _ _ _ _ Hrows Hin) as [->|Hnd]; [done|].
    apply submseteq_length, NoDup_submseteq; [done|].
    intros c Hcin. rewrite Hcols.
    eapply combined_index_elem; [|exact Hcin].
    apply list_elem_of_fmap. by exists (s_data s).
Qed.

Lemma summary_totals_after_combine_witness :
  total_rows (get_summary (mkCombiner [sheet_ab; sheet_bc] frame_abc None))
  = sum_list (stat_rows <$> sum_sheets
                (get_summary (mkCombiner [sheet_ab; sheet_bc] frame_abc None))).
Proof.
  refine (proj1 (summary_totals_after_combine
                   (mkCombiner [sheet_ab; sheet_bc] pd.empty_frame None)
                   frame_abc (mkCombiner [sheet_ab; sheet_bc] frame_abc None) _)).
  reflexivity.
Defined.

Lemma sum_list_delete (l : list nat) i x :
  l !! i = Some x → sum_list l = x + sum_list (delete i l).
Proof.
  revert i. induction l as [|y l IH]; intros i; [done|].
  destruct i as [|i]; simpl.
  - by intros [= ->].
  - intros Hi. rewrite (IH i Hi). lia.
Qed.

(** X20: removing a sheet and combining again drops exactly that sheet's
    rows: the new combination has as many rows as the old one minus the
    rows of the removed sheet. *)
Theorem remove_then_combine (self : Combiner) (i : nat) (s : Sheet)
    (df : DataFrame) (self1 self2 : Combiner) (df2 : DataFrame)
    (self3 : Combiner) :
  sheets_data self !! i = Some s →
  combine_sheets self = inr (df, self1) →
  remove_sheet self1 i = inr self2 →
  combine_sheets self2 = inr (df2, self3) →
  pd.len df = pd.len df2 + pd.len (s_data s)
  ∧ sheets_data self3 = delete i (sheets_data self)
  ∧ combined_data self2 = df ∧ combined_data self3 = df2.
Proof.
  intros Hs Hc1 Hr Hc2.
  apply combine_sheets_inr in Hc1 as (_ & Hconcat1 & ->).
  unfold remove_sheet in Hr. simpl in Hr. case_decide; [|done].
  injection Hr as <-.
  apply combine_sheets_inr in Hc2 as (_ & Hconcat2 & ->). simpl in *.
  apply concat_inr in Hconcat1 as [_ Hrows1].
  apply concat_inr in Hconcat2 as [_ Hrows2].
  split; [|done]. unfold pd.len at 1 2.
  rewrite (concat_rows_length _ _ _ Hrows1), (concat_rows_length _ _ _ Hrows2).
  rewrite <- !list_fmap_compose.
  rewrite (sum_list_delete _ i (pd.len (s_data s))).
  2:{ by rewrite list_lookup_fmap, Hs. }
  rewrite list_fmap_delete. lia.
Qed.

Lemma remove_then_combine_witness :
  pd.len frame_abc = pd.len frame_bc + pd.len (s_data sheet_ab).
Proof.
  refine (proj1 (remove_then_combine
                   (mkCombiner [sheet_ab; sheet_bc] pd.empty_frame None) 0
                   sheet_ab frame_abc
                   (mkCombiner [sheet_ab; sheet_bc] frame_abc None)
                   (mkCombiner [sheet_bc] frame_abc None) frame_bc
                   (mkCombiner [sheet_bc] frame_bc None) _ _ _ _));
    reflexivity.
Defined.

(** X21: a worksheet that holds nothing but one row is never added on the
    authenticated channel: whatever header row (at least 1) is asked for,
    that row becomes the header, no data row is left, and [add_sheet]
    returns [False] with the combiner unchanged. *)
Theorem header_only_sheet_not_added rg rc (self : Combiner)
    (service : SheetsService) (sheet_id : string) (sheet_info : SheetInfo)
    (header_row : Z) (custom_name : option string) (row : list string) :
  sheets_service self = Some service →
  service sheet_id (range_name (info_name sheet_info)) = inr [row] →
  (1 ≤ header_row)%Z →
  ∃ log,
    add_sheet rg rc self sheet_id sheet_info header_row custom_name
    = (log, inr (false, self)).
Proof.
  intros Hsvc Hvalues Hpos.
  destruct (normalize_eq [row] header_row
              (provenance sheet_id (info_name sheet_info) (info_gid sheet_info)))
    as (headers & _ & Heq); [done|done|].
  assert (clamp_idx (length [row]) header_row = 0%Z) as Hidx.
  { unfold clamp_idx. simpl.
    destruct (Z.of_nat 1 <=? header_row - 1)%Z eqn:Hle; [done|].
    apply Z.leb_gt in Hle. lia. }
  rewrite Hidx, data_rows_0 in Heq.
  assert (drop 1 (padded_values [row]) = []) as Hdrop by reflexivity.
  rewrite Hdrop in Heq.
  set (df := pd.setitem (mkFrame (unique_headers headers) (map (map Text) []))
               source_column
               (Text (provenance sheet_id (info_name sheet_info)
                        (info_gid sheet_info)))) in Heq.
  assert (rows df = []) as Hrows.
  { unfold df, pd.setitem. by case_decide. }
  assert (∃ log0,
    fetch_sheet_data rg rc (sheets_service self) sheet_id
      (info_name sheet_info) (info_gid sheet_info) header_row
    = (log0, inr df)) as [log0 Hfetch].
  { rewrite Hsvc. simpl. unfold fetch_api, lift.
    rewrite Hvalues, bind_inr. rewrite decide_False by done.
    rewrite Heq. simpl. eauto. }
  unfold add_sheet. rewrite Hfetch, bind_inr.
  rewrite (empty_of_no_rows _ Hrows). simpl. eauto.
Qed.

Lemma header_only_sheet_not_added_witness :
  ∃ log,
    add_sheet get_csv simple_read_csv
      (mkCombiner [sheet_ab] pd.empty_frame (Some header_only_service))
      "1A2b3C" (mkInfo "0" (Some "Tab")) 4 None
    = (log, inr (false,
                 mkCombiner [sheet_ab] pd.empty_frame (Some header_only_service))).
Proof.
  refine (header_only_sheet_not_added get_csv simple_read_csv
            (mkCombiner [sheet_ab] pd.empty_frame (Some header_only_service))
            header_only_service "1A2b3C" (mkInfo "0" (Some "Tab")) 4 None
            ["a"; "b"] _ _ _); [reflexivity|reflexivity|lia].
Defined.

(** ** Identifier resolver and the URLs the program builds *)

Lemma re_search_skip a s :
  match_at (String a s) = None → re_search (String a s) = re_search s.
Proof. intros Hm. by rewrite re_search_unfold, Hm. Qed.

Lemma re_search_here s g : matches_here s g → re_search s = Some g.
Proof. intros Hm%match_at_spec. by rewrite re_search_unfold, Hm. Qed.

Lemma re_search_docs_prefix t :
  re_search ("https://docs.google.com" +:+ t) = re_search t.
Proof.
  repeat rewrite app_String. rewrite app_empty.
  by repeat (rewrite re_search_skip by reflexivity).
Qed.

(** X22: the resolver inverts the URLs the program builds.  For an
    identifier made of one or more characters of [A-Za-z0-9_-], extracting
    from the CSV export URL or from the edit-page URL built for it gives
    back that identifier. *)
Theorem extract_of_built_urls (sheet_id gid : string) :
  sheet_id ≠ "" → all_id sheet_id = true →
  extract_sheet_id (csv_url sheet_id gid) = inr sheet_id
  ∧ extract_sheet_id (edit_url sheet_id) = inr sheet_id.
Proof.
  intros Hne Hid. unfold extract_sheet_id, csv_url, edit_url. split.
  - change ("https://docs.google.com/spreadsheets/d/" +:+ sheet_id
            +:+ "/export?format=csv&gid=" +:+ gid)
      with ("https://docs.google.com"
            +:+ (url_literal +:+ sheet_id +:+ ("/export?format=csv&gid=" +:+ gid))).
    rewrite re_search_docs_prefix.
    rewrite (re_search_here _ sheet_id); [done|].
    eexists. split; [done|]. split; [done|]. split; [done|]. done.
  - change ("https://docs.google.com/spreadsheets/d/" +:+ sheet_id +:+ "/edit")
      with ("https://docs.google.com" +:+ (url_literal +:+ sheet_id +:+ "/edit")).
    rewrite re_search_docs_prefix.
    rewrite (re_search_here _ sheet_id); [done|].
    eexists. split; [done|]. split; [done|]. split; [done|]. done.
Qed.

Lemma extract_of_built_urls_witness :
  extract_sheet_id (csv_url "1A2b3C-x_9" "1763") = inr "1A2b3C-x_9".
Proof.
  refine (proj1 (extract_of_built_urls "1A2b3C-x_9" "1763" _ _));
    [discriminate|reflexivity].
Defined.

(** ** Sheet directory *)

Lemma entries_of_nil p matches : entries_of p matches = [] ↔ matches = [].
Proof. destruct p, matches; simpl; split; done. Qed.

Section ScanPatterns.
Context (re_findall : pattern → string → list (string * string)).
Context (text : string).

Lemma scan_patterns_none ps :
  Forall (λ q, re_findall q text = []) ps →
  scan_patterns re_findall ps text [] = [].
Proof.
  induction 1 as [|q ps Hq _ IH]; [done|]. simpl.
  by rewrite Hq, (proj2 (entries_of_nil q [])).
Qed.

Lemma scan_patterns_first pre p post :
  Forall (λ q, re_findall q text = []) pre →
  re_findall p text ≠ [] →
  scan_patterns re_findall (pre ++ p :: post) text []
  = entries_of p (re_findall p text).
Proof.
  intros Hpre Hp. induction Hpre as [|q pre Hq _ IH]; simpl.
  - destruct (entries_of p (re_findall p text)) eqn:He; [|done].
    by apply entries_of_nil in He.
  - by rewrite Hq, (proj2 (entries_of_nil q [])).
Qed.

Lemma scan_patterns_cases ps :
  (Forall (λ q, re_findall q text = []) ps
   ∧ scan_patterns re_findall ps text [] = [])
  ∨ (∃ pre p post,
       ps = pre ++ p :: post
       ∧ Forall (λ q, re_findall q text = []) pre
       ∧ re_findall p text ≠ []
       ∧ scan_patterns re_findall ps text [] = entries_of p (re_findall p text)
       ∧ entries_of p (re_findall p text) ≠ []).
Proof.
  induction ps as [|q ps IH].
  { left. by split. }
  destruct (re_findall q text) as [|m ms] eqn:Hq.
  - destruct IH as [[Hall Hs]|(pre & p & post & -> & Hpre & Hp & Hs & Hne)].
    + left. split; [by constructor|]. simpl.
      by rewrite Hq, (proj2 (entries_of_nil q [])).
    + right. exists (q :: pre), p, post. split; [done|].
      split; [by constructor|]. split; [done|]. split; [|done].
      simpl. by rewrite Hq, (proj2 (entries_of_nil q [])).
  - right. exists [], q, ps. split; [done|]. split; [done|].
    assert (re_findall q text ≠ []) as Hne by (by rewrite Hq).
    split; [done|]. split.
    + by apply (scan_patterns_first [] q ps).
    + intros He%entries_of_nil. done.
Qed.
End ScanPatterns.

(** X23: the public directory never comes back empty once the page was
    fetched.  The result is the matches of the first pattern, in the fixed
    order, that matches at all (with the gid taken from the first group
    for the last pattern, from the second for the others); when no pattern
    matches it is the single default entry gid "0", name "Sheet1", with a
    warning. *)
Theorem public_directory_result sg rg rf (self : Combiner)
    (sheet_id text : string) :
  sheets_service self = None →
  rg (edit_url sheet_id) = inr text →
  ∃ log infos,
    get_sheet_info sg rg rf self sheet_id = (log, inr infos)
    ∧ infos ≠ []
    ∧ (Forall (λ q, rf q text = []) patterns →
       infos = [default_entry]
       ∧ log = [st_warning "⚠️ No sheets found. This may be a private sheet requiring authentication."])
    ∧ (∀ pre p post,
         patterns = pre ++ p :: post →
         Forall (λ q, rf q text = []) pre →
         rf p text ≠ [] →
         infos = entries_of p (rf p text)).
Proof.
  intros Hsvc Hget. unfold get_sheet_info. rewrite Hsvc.
  unfold sheet_info_public, lift. rewrite Hget, bind_inr.
  destruct (scan_patterns_cases rf text patterns)
    as [[Hall Hs]|(pre & p & post & Hps & Hpre & Hp & Hs & Hne)].
  - rewrite Hs. simpl. eexists _, _. split; [done|]. split; [done|].
    split; [done|]. intros pre p post Hps Hpre Hp. exfalso.
    rewrite Hps in Hall. apply Forall_app in Hall as [_ Hall].
    apply Forall_cons in Hall as [Hp' _]. done.
  - rewrite Hs.
    destruct (entries_of p (rf p text)) as [|e es] eqn:He; [done|].
    simpl. eexists _, _. split; [done|]. split; [done|]. split.
    + intros Hall. exfalso. rewrite Hps in Hall.
      apply Forall_app in Hall as [_ Hall].
      apply Forall_cons in Hall as [Hp' _]. done.
    + intros pre' p' post' Hps' Hpre' Hp'.
      rewrite <- Hs, Hps'. by apply scan_patterns_first.
Qed.

Lemma public_directory_result_witness :
  ∃ log infos,
    get_sheet_info two_tab_metadata get_html title_matches new_combiner "1A2b3C"
    = (log, inr infos)
    ∧ infos = [mkInfo "0" (Some "Orders"); mkInfo "1763" (Some "Clients")].
Proof.
  destruct (public_directory_result two_tab_metadata get_html title_matches
              new_combiner "1A2b3C" html_body eq_refl eq_refl)
    as (log & infos & Hg & _ & _ & Hfirst).
  exists log, infos. split; [exact Hg|].
  refine (Hfirst [sheetName_then_sheetId] title_then_sheetId
            [name_then_sheetId; properties_sheetId_then_title] eq_refl _ _).
  - repeat constructor.
  - discriminate.
Defined.

(** X24: the directory uses one channel only.  With a service set the
    result does not depend on the public page or the patterns; without one
    it does not depend on the metadata call and depends on the HTTP
    endpoint only through the edit-page URL of this spreadsheet. *)
Theorem sheet_directory_channels_exclusive (self : Combiner) (sheet_id : string) :
  (∀ sg rg rf rg' rf',
     sheets_service self ≠ None →
     get_sheet_info sg rg rf self sheet_id
     = get_sheet_info sg rg' rf' self sheet_id)
  ∧ (∀ sg rg rf sg' rg',
       sheets_service self = None →
       rg (edit_url sheet_id) = rg' (edit_url sheet_id) →
       get_sheet_info sg rg rf self sheet_id
       = get_sheet_info sg' rg' rf self sheet_id).
Proof.
  unfold get_sheet_info. split.
  - intros sg rg rf rg' rf' Hsvc. by destruct (sheets_service self).
  - intros sg rg rf sg' rg' -> Heq. unfold sheet_info_public. by rewrite Heq.
Qed.

Lemma sheet_directory_channels_exclusive_witness :
  get_sheet_info two_tab_metadata get_html title_matches
    (mkCombiner [] pd.empty_frame (Some two_row_service)) "1A2b3C"
  = get_sheet_info two_tab_metadata get_unauthorized no_matches
      (mkCombiner [] pd.empty_frame (Some two_row_service)) "1A2b3C".
Proof.
  refine (proj1 (sheet_directory_channels_exclusive
                   (mkCombiner [] pd.empty_frame (Some two_row_service)) "1A2b3C")
            two_tab_metadata get_html title_matches get_unauthorized no_matches _).
  discriminate.
Defined.

(** X25: every failure of the directory resolves to the empty list: when
    the metadata call raises (one error message, whatever the status), and
    when the public page request raises; no exception leaves
    [get_sheet_info]. *)
Theorem sheet_directory_failures sg rg rf (self : Combiner) (sheet_id : string) :
  (∀ e, sheets_service self ≠ None → sg sheet_id = inl e →
        ∃ m, get_sheet_info sg rg rf self sheet_id = ([st_error m], inr []))
  ∧ (∀ e, sheets_service self = None → rg (edit_url sheet_id) = inl e →
          (get_sheet_info sg rg rf self sheet_id).2 = inr [])
  ∧ returns (get_sheet_info sg rg rf self sheet_id).
Proof.
  unfold get_sheet_info. split; [|split].
  - intros e Hsvc He. destruct (sheets_service self); [|done].
    unfold sheet_info_api, lift. rewrite He, bind_inl, try_except_inl.
    destruct e; simpl; eauto.
  - intros e -> He. unfold sheet_info_public, lift.
    rewrite He, bind_inl, try_except_inl. destruct e; try done. simpl.
    by destruct (PyStr.contains "401" m || PyStr.contains "Unauthorized" m).
  - destruct (sheets_service self).
    + apply try_except_returns. intros e. destruct e; by exists [].
    + apply try_except_returns. intros e. destruct e; try by exists [].
      simpl.
      destruct (PyStr.contains "401" m || PyStr.contains "Unauthorized" m);
        by exists [].
Qed.

Lemma sheet_directory_failures_witness :
  (get_sheet_info two_tab_metadata get_unauthorized title_matches new_combiner
     "1A2b3C").2 = inr [].
Proof.
  refine (proj1 (proj2 (sheet_directory_failures two_tab_metadata get_unauthorized
                          title_matches new_combiner "1A2b3C"))
            (RequestException "401 Client Error: Unauthorized for url") _ _);
    reflexivity.
Defined.

Lemma pretty_N_go_head x :
  ∀ s, (s = "" ∨ ∃ d t, s = String (pretty_N_char d) t) →
       pretty_N_go x s = "" ∨ ∃ d t, pretty_N_go x s = String (pretty_N_char d) t.
Proof.
  induction (N.lt_wf_0 x) as [x _ IH]; intros s Hs.
  assert (x = 0 ∨ 0 < x)%N as [->|Hx] by lia.
  - by rewrite pretty_N_go_0.
  - rewrite pretty_N_go_step by done. apply IH; [by apply N.div_lt|].
    right. eauto.
Qed.

Lemma pretty_Z_not_None (z : Z) : pretty z ≠ "None".
Proof.
  assert (∀ p : positive, pretty (N.pos p) ≠ "None") as Hpos.
  { intros p. unfold pretty, pretty_N. rewrite decide_False by done.
    destruct (pretty_N_go_head (N.pos p) "") as [->|(d & t & ->)]; [by left|done|].
    intros [= Hd _]. revert Hd. unfold pretty_N_char. by repeat case_match. }
  destruct z as [|p|p]; [done|apply Hpos|].
  unfold pretty, pretty_Z. rewrite app_String. discriminate.
Qed.

Lemma str_sheetId_inj x y : str_sheetId x = str_sheetId y → x = y.
Proof.
  destruct x as [x|], y as [y|]; simpl; [|intros H..|done].
  - by intros ->%(inj pretty).
  - by apply pretty_Z_not_None in H.
  - symmetry in H. by apply pretty_Z_not_None in H.
Qed.

(** X26: on the authenticated channel the directory has one entry per
    worksheet descriptor, in the order of the metadata answer, named by the
    title, and the gid strings tell the worksheets apart: descriptors with
    different sheet ids (or with and without one) get different gids.  An
    answer without worksheets gives the empty list with a warning. *)
Theorem api_directory_entries sg rg rf (self : Combiner) (sheet_id : string)
    (sheets : list SheetProps) :
  sheets_service self ≠ None →
  sg sheet_id = inr sheets →
  (get_sheet_info sg rg rf self sheet_id).2 = inr (info_of_props <$> sheets)
  ∧ (∀ i j a b,
       (info_of_props <$> sheets) !! i = Some a →
       (info_of_props <$> sheets) !! j = Some b →
       info_gid a = info_gid b →
       prop_sheetId <$> sheets !! i = prop_sheetId <$> sheets !! j)
  ∧ (NoDup (prop_sheetId <$> sheets) → NoDup (info_gid <$> (info_of_props <$> sheets)))
  ∧ (sheets = [] →
     get_sheet_info sg rg rf self sheet_id
     = ([st_warning "No sheets found via API."], inr [])).
Proof.
  intros Hsvc Hsg. unfold get_sheet_info.
  destruct (sheets_service self); [|done].
  unfold sheet_info_api, lift. rewrite Hsg, bind_inr.
  split; [|split; [|split]].
  - destruct sheets; done.
  - intros i j a b. rewrite !list_lookup_fmap.
    destruct (sheets !! i) as [pa|], (sheets !! j) as [pb|]; simpl; try done.
    intros [= <-] [= <-]. simpl. by intros ->%str_sheetId_inj.
  - intros Hnd. rewrite <- list_fmap_compose.
    assert (info_gid ∘ info_of_props = str_sheetId ∘ prop_sheetId) as -> by done.
    rewrite list_fmap_compose. apply NoDup_fmap_2; [|done].
    intros x y. apply str_sheetId_inj.
  - by intros ->.
Qed.

Lemma api_directory_entries_witness :
  (get_sheet_info two_tab_metadata get_html no_matches
     (mkCombiner [] pd.empty_frame (Some two_row_service)) "1A2b3C").2
  = inr [mkInfo "0" (Some "Orders"); mkInfo "1763" (Some "Clients")].
Proof.
  refine (proj1 (api_directory_entries two_tab_metadata get_html no_matches
                   (mkCombiner [] pd.empty_frame (Some two_row_service)) "1A2b3C"
                   [mkProps (Some 0%Z) (Some "Orders");
                    mkProps (Some 1763%Z) (Some "Clients")] _ _));
    [discriminate|reflexivity].
Defined.
